(** * gitfuse: a read-only FUSE view of a git repository

    A shallow embedding of [gitfs.py] and the properties of its path
    resolution, attribute synthesis, listing and read operations.

    Python values are modelled as follows.
    - [str] (Python 2 byte strings) used for paths and names: [string].
    - blob contents: [list byte].
    - [int]: [Z] (Python integers are unbounded; [&] and [~] are [Z.land]
      and [Z.lnot]).
    - exceptions: the error side of [Result]; a raised exception aborts the
      enclosing computation unless a [try] of the source catches it.
    - [frozenset]: [gset string]; [list(frozenset(..))] is [elements], whose
      order is as unspecified as Python's hash order.
    - the pygit2 repository: a record holding the reference table, the object
      database and the [lstat] result of its storage directory. *)

From Stdlib Require Import ZArith Ascii String List Lia Bool.
From stdpp Require Import base gmap sets list strings.
Import ListNotations.

Local Open Scope Z_scope.

(** ** Python exceptions and results *)

Inductive Errno := ENOENT | EACCES.

Inductive PyExc :=
| FuseOSError (e : Errno)
| KeyError
| TypeError
| IndexError
| AttributeError.

Inductive Result (A : Type) :=
| Ok (a : A)
| Raise (e : PyExc).
Arguments Ok {A} a.
Arguments Raise {A} e.

Definition bind {A B} (m : Result A) (k : A -> Result B) : Result B :=
  match m with
  | Ok a => k a
  | Raise e => Raise e
  end.

#[global] Instance Result_bind : MBind Result :=
  fun A B k m => bind m k.

(** The not-found error every resolution failure is meant to surface as. *)
Definition not_found {A} : Result A := Raise (FuseOSError ENOENT).

(** ** Python string and list primitives *)

Module PyStr.

Definition slash : ascii := "/"%char.

(** [s.startswith(p)] *)
Definition startswith (s p : string) : bool := String.prefix p s.

(** [s[n:]] for a non-negative [n]; past the end the slice is empty. *)
Fixpoint from (n : nat) (s : string) : string :=
  match n, s with
  | O, _ => s
  | S n', String _ s' => from n' s'
  | S _, EmptyString => EmptyString
  end.

(** Put a character in front of the first piece of a split. *)
Definition push (a : ascii) (l : list string) : list string :=
  match l with
  | h :: t => String a h :: t
  | [] => [String a EmptyString]
  end.

(** [s.split(sep)]: one more piece than there are separators. *)
Fixpoint split (sep : ascii) (s : string) : list string :=
  match s with
  | EmptyString => [EmptyString]
  | String a s' =>
      if Ascii.eqb a sep then EmptyString :: split sep s'
      else push a (split sep s')
  end.

(** [s.split(sep, n)]: at most [n] splits, the rest is left whole. *)
Fixpoint split_max (sep : ascii) (s : string) (n : nat) : list string :=
  match s with
  | EmptyString => [EmptyString]
  | String a s' =>
      match n with
      | O => [String a s']
      | S n' =>
          if Ascii.eqb a sep then EmptyString :: split_max sep s' n'
          else push a (split_max sep s' n)
      end
  end.

End PyStr.

Module PyList.

(** [l[i]], negative [i] counting from the end, [IndexError] out of
    range. *)
Definition getitem {A} (l : list A) (i : Z) : Result A :=
  let n := Z.of_nat (length l) in
  let j := if i <? 0 then i + n else i in
  if (j <? 0) || (n <=? j) then Raise IndexError
  else match nth_error l (Z.to_nat j) with
       | Some a => Ok a
       | None => Raise IndexError
       end.

(** An index of a slice, clamped the way Python clamps it. *)
Definition clamp (len k : Z) : Z :=
  if k <? 0 then Z.max (k + len) 0 else Z.min k len.

(** [l[i:j]] *)
Definition slice {A} (l : list A) (i j : Z) : list A :=
  let n := Z.of_nat (length l) in
  let lo := clamp n i in
  let hi := clamp n j in
  if hi <=? lo then []
  else firstn (Z.to_nat (hi - lo)) (skipn (Z.to_nat lo) l).

(** [l[:-1]] *)
Definition init {A} (l : list A) : list A := removelast l.

(** [[f(x) for x in l]] for an [f] that may raise: elements are
    evaluated in order and the first exception ends the comprehension. *)
Fixpoint comprehension {A B} (f : A -> Result B) (l : list A)
  : Result (list B) :=
  match l with
  | [] => Ok []
  | a :: l' => b ← f a; bs ← comprehension f l'; Ok (b :: bs)
  end.

(** Truth value of a list: non-empty. *)
Definition truthy {A} (l : list A) : bool :=
  match l with [] => false | _ :: _ => true end.

(** [reduce(f, l, a)] for an [f] that may raise. *)
Fixpoint reduce {A B} (f : A -> B -> Result A) (l : list B) (a : A)
  : Result A :=
  match l with
  | [] => Ok a
  | b :: l' => a' ← f a b; reduce f l' a'
  end.

End PyList.

(** ** The repository: references and the object database *)

Definition Oid := N.

Record TreeEntry := mkEntry {
  name : string;
  filemode : Z;
  oid : Oid
}.

Inductive GitObject :=
| Commit (tree_id : Oid)
| Tree (entries : list TreeEntry)
| Blob (data : list Byte.byte)
| Tag (target : Oid).

(** The fields of [os.lstat]'s result, in the order of the [Stat] tuple. *)
Record Stat := mkStat {
  st_mode : Z;
  st_ino : Z;
  st_dev : Z;
  st_nlink : Z;
  st_uid : Z;
  st_gid : Z;
  st_size : Z;
  st_atime : Z;
  st_mtime : Z;
  st_ctime : Z
}.

Inductive StatField :=
| F_mode | F_ino | F_dev | F_nlink | F_uid | F_gid | F_size
| F_atime | F_mtime | F_ctime.

Record Repository := mkRepo {
  (** qualified reference name, e.g. [refs/heads/main], to its target *)
  references : gmap string Oid;
  (** the object database *)
  objects : gmap Oid GitObject;
  (** [os.lstat(repo.path)] *)
  path_lstat : Stat
}.

(** [repo.listall_references()] *)
Definition listall_references (repo : Repository) : list string :=
  (map_to_list (references repo)).*1.

(** [repo.lookup_reference(name).oid] *)
Definition lookup_reference (repo : Repository) (qname : string)
  : Result Oid :=
  match references repo !! qname with
  | Some o => Ok o
  | None => Raise KeyError
  end.

(** [repo[oid]] *)
Definition repo_getitem (repo : Repository) (o : Oid) : Result GitObject :=
  match objects repo !! o with
  | Some obj => Ok obj
  | None => Raise KeyError
  end.

(** [entry.to_object()] *)
Definition to_object (repo : Repository) (e : TreeEntry) : Result GitObject :=
  repo_getitem repo (oid e).

(** [obj[part]]: only a tree can be indexed by name. *)
Definition obj_getitem (obj : GitObject) (part : string) : Result TreeEntry :=
  match obj with
  | Tree es =>
      match List.find (fun e => String.eqb (name e) part) es with
      | Some e => Ok e
      | None => Raise KeyError
      end
  | _ => Raise TypeError
  end.

(** [commit.tree] *)
Definition commit_tree (repo : Repository) (obj : GitObject)
  : Result GitObject :=
  match obj with
  | Commit t => repo_getitem repo t
  | _ => Raise AttributeError
  end.

(** [blob.data] *)
Definition blob_data (obj : GitObject) : Result (list Byte.byte) :=
  match obj with
  | Blob d => Ok d
  | _ => Raise AttributeError
  end.

(** ** Constants of [stat] and [os] *)

Definition S_IFDIR : Z := 0x4000.   (* 0040000 *)
Definition S_IFMT : Z := 0xF000.    (* 0170000 *)
Definition O_RDONLY : Z := 0.
Definition O_WRONLY : Z := 1.
(** The literal [0222] of [copy_stat]. *)
Definition write_bits : Z := 0x92. (* 0222 *)

(** [stat.S_ISDIR(mode)] *)
Definition S_ISDIR (mode : Z) : bool := Z.land mode S_IFMT =? S_IFDIR.

(** ** [gitfs.py] *)

(** [try: m except (TypeError, KeyError): raise FuseOSError(ENOENT)] *)
Definition except_type_key_error {A} (m : Result A) : Result A :=
  match m with
  | Raise TypeError | Raise KeyError => Raise (FuseOSError ENOENT)
  | r => r
  end.

Definition set_field (f : StatField) (v : Z) (st : Stat) : Stat :=
  match f with
  | F_mode => mkStat v (st_ino st) (st_dev st) (st_nlink st) (st_uid st)
                (st_gid st) (st_size st) (st_atime st) (st_mtime st) (st_ctime st)
  | F_ino => mkStat (st_mode st) v (st_dev st) (st_nlink st) (st_uid st)
               (st_gid st) (st_size st) (st_atime st) (st_mtime st) (st_ctime st)
  | F_dev => mkStat (st_mode st) (st_ino st) v (st_nlink st) (st_uid st)
               (st_gid st) (st_size st) (st_atime st) (st_mtime st) (st_ctime st)
  | F_nlink => mkStat (st_mode st) (st_ino st) (st_dev st) v (st_uid st)
                 (st_gid st) (st_size st) (st_atime st) (st_mtime st) (st_ctime st)
  | F_uid => mkStat (st_mode st) (st_ino st) (st_dev st) (st_nlink st) v
               (st_gid st) (st_size st) (st_atime st) (st_mtime st) (st_ctime st)
  | F_gid => mkStat (st_mode st) (st_ino st) (st_dev st) (st_nlink st) (st_uid st)
               v (st_size st) (st_atime st) (st_mtime st) (st_ctime st)
  | F_size => mkStat (st_mode st) (st_ino st) (st_dev st) (st_nlink st) (st_uid st)
                (st_gid st) v (st_atime st) (st_mtime st) (st_ctime st)
  | F_atime => mkStat (st_mode st) (st_ino st) (st_dev st) (st_nlink st) (st_uid st)
                 (st_gid st) (st_size st) v (st_mtime st) (st_ctime st)
  | F_mtime => mkStat (st_mode st) (st_ino st) (st_dev st) (st_nlink st) (st_uid st)
                 (st_gid st) (st_size st) (st_atime st) v (st_ctime st)
  | F_ctime => mkStat (st_mode st) (st_ino st) (st_dev st) (st_nlink st) (st_uid st)
                 (st_gid st) (st_size st) (st_atime st) (st_mtime st) v
  end.

(** [st._replace] applied to keyword arguments *)
Definition replace (st : Stat) (kwargs : list (StatField * Z)) : Stat :=
  fold_left (fun acc kv => set_field (fst kv) (snd kv) acc) kwargs st.

Definition copy_stat (st : Stat) (kwargs : list (StatField * Z)) : Stat :=
  let result := st in
  let result := replace result kwargs in
  let result :=
    replace result
      [ (F_ino, 0);
        (* Remove any write bits from st_mode *)
        (F_mode, Z.land (st_mode result) (Z.lnot write_bits)) ] in
  result.

Definition git_tree_to_direntries (tree : GitObject) : Result (list string) :=
  match tree with
  | Tree es => Ok (map name es)
  | _ => Raise TypeError
  end.

(** The accumulator of the [reduce] is a tree object or Python's [None]. *)
Definition git_tree_find (repo : Repository) (tree : GitObject) (path : string)
  : Result TreeEntry :=
  let parts := PyStr.split PyStr.slash path in
  (* Advance through sub-trees until end of path *)
  tree ← PyList.reduce
           (fun (t : option GitObject) part =>
              match t with
              | Some o =>
                  e ← obj_getitem o part;
                  o' ← to_object repo e;
                  Ok (Some o')
              | None => Ok None
              end)
           (PyList.init parts)
           (Some tree);
  (* Get the entry for the last part of the path *)
  except_type_key_error
    (last_part ← PyList.getitem parts (-1);
     match tree with
     | Some o => obj_getitem o last_part
     | None => Raise TypeError
     end).

Section GitFS.

Variable repo : Repository.

Definition refs : list string :=
  map (PyStr.from 4)
    (List.filter (fun r => PyStr.startswith r "refs/")
       (listall_references repo)).

Definition get_parent_ref (path : string) : Result string :=
  let matches :=
    List.filter (fun r => PyStr.startswith path (r +:+ "/")) refs in
  if negb (Nat.eqb (length matches) 1) then Raise (FuseOSError ENOENT)
  else PyList.getitem matches 0.

Definition get_child_refs (path : string) : list string :=
  List.filter (fun r => PyStr.startswith r path) refs.

Definition get_path_children (path : string) : Result (list string) :=
  let path_len :=
    if String.eqb path "/" then O else String.length path in
  let children := get_child_refs path in
  children ←
    PyList.comprehension
      (fun r =>
         PyList.getitem (PyStr.split_max PyStr.slash (PyStr.from path_len r) 2) 1)
      (List.filter (fun r => Nat.ltb path_len (String.length r)) children);
  Ok (elements (list_to_set children : gset string)).

Definition get_reference_commit (ref_name : string) : Result GitObject :=
  o ← lookup_reference repo ("refs" +:+ ref_name);
  repo_getitem repo o.

Definition getattr (path : string) : Result Stat :=
  if PyStr.startswith path "/." then Raise (FuseOSError ENOENT) else
  let repo_stat := path_lstat repo in
  let default_stat := copy_stat repo_stat [] in
  (* Path is parent of ref or is ref *)
  if PyList.truthy (get_child_refs path) then Ok default_stat else
  (* Path is child of ref *)
  ref ← get_parent_ref path;
  commit ← get_reference_commit ref;
  tree ← commit_tree repo commit;
  entry ← git_tree_find repo tree (PyStr.from (String.length ref + 1) path);
  (* Path is directory *)
  if Z.land (filemode entry) S_IFDIR =? S_IFDIR then Ok default_stat else
  (* Path is stand-alone file *)
  blob ← repo_getitem repo (oid entry);
  data ← blob_data blob;
  let size := Z.of_nat (length data) in
  Ok (copy_stat repo_stat [(F_size, size); (F_mode, filemode entry)]).

Definition readdir (path : string) : Result (list string) :=
  (* Path is parent of ref *)
  children ← get_path_children path;
  if PyList.truthy children then Ok children else
  (* Path is ref *)
  if existsb (String.eqb path) refs then
    commit ← get_reference_commit path;
    path_tree ← commit_tree repo commit;
    git_tree_to_direntries path_tree
  else
  (* Path is a child of a ref *)
  ref ← get_parent_ref path;
  commit ← get_reference_commit ref;
  tree ← commit_tree repo commit;
  entry ← git_tree_find repo tree (PyStr.from (String.length ref + 1) path);
  (* Path is directory *)
  if Z.land (filemode entry) S_IFDIR =? S_IFDIR then
    subtree ← repo_getitem repo (oid entry);
    git_tree_to_direntries subtree
  else Ok [].

Definition open (path : string) (flags : Z) : Result Z :=
  if PyStr.startswith path "/." then Raise (FuseOSError ENOENT) else
  if negb (Z.land flags O_RDONLY =? O_RDONLY) then
    Raise (FuseOSError EACCES)
  else Ok 0.

Definition read (path : string) (size offset : Z) : Result (list Byte.byte) :=
  if PyStr.startswith path "/." then Raise (FuseOSError ENOENT) else
  (* Path is a child of ref *)
  ref ← get_parent_ref path;
  commit ← get_reference_commit ref;
  tree ← commit_tree repo commit;
  entry ← git_tree_find repo tree (PyStr.from (String.length ref + 1) path);
  blob ← to_object repo entry;
  data ← blob_data blob;
  if (offset =? 0) && (Z.of_nat (length data) <=? size) then Ok data
  else Ok (PyList.slice data offset (offset + size)).

End GitFS.

(** ** Notions used to state the properties *)

(** The path starts with the hidden-entry sentinel. *)
Definition hidden (path : string) : bool := PyStr.startswith path "/.".

(** [path] resolves, through its owning reference and the tree descent, to
    the snapshot entry [e]. *)
Definition resolves (repo : Repository) (path : string) (e : TreeEntry) : Prop :=
  exists ref commit tree,
    get_parent_ref repo path = Ok ref /\
    get_reference_commit repo ref = Ok commit /\
    commit_tree repo commit = Ok tree /\
    git_tree_find repo tree (PyStr.from (String.length ref + 1) path) = Ok e.

(** The entry's mode marks it as a directory, as the dispatcher tests it. *)
Definition entry_is_directory (e : TreeEntry) : bool :=
  Z.land (filemode e) S_IFDIR =? S_IFDIR.

(** [path] is a reference, an ancestor directory of one, or the root of a
    namespace that holds at least one reference. *)
Definition namespace_node (repo : Repository) (path : string) : Prop :=
  exists r, In r (refs repo) /\
    (r = path \/ PyStr.startswith r (path +:+ "/") = true \/ path = "/").

(** The directory template: the repository's own metadata, write bits
    cleared and inode zeroed. *)
Definition directory_template (repo : Repository) : Stat :=
  copy_stat (path_lstat repo) [].

(** The first segment of a relative path, the empty pieces a leading
    separator produces being skipped. *)
Definition first_segment (s : string) : option string :=
  List.find (fun seg => negb (String.eqb seg "")) (PyStr.split PyStr.slash s).

(** [direct_children] as the specification words it: for each reference
    under [path], strip the [path] prefix, split on the separator, take the
    first remaining segment; deduplicate. *)
Definition direct_children_spec (repo : Repository) (path : string)
  : gset string :=
  list_to_set
    (omap (fun r => first_segment (PyStr.from (String.length path) r))
       (get_child_refs repo path)).

(** [path] ends on a segment boundary of the reference [r]: either nothing
    of [r] is left after it, or what is left is a separator followed by a
    non-empty segment. The root path is compared from position 0, as
    [get_path_children] does. *)
Definition on_boundary (path r : string) : bool :=
  let path_len := if String.eqb path "/" then O else String.length path in
  match PyStr.from path_len r with
  | EmptyString => true
  | String a rest =>
      Ascii.eqb a PyStr.slash &&
      match rest with
      | String c _ => negb (Ascii.eqb c PyStr.slash)
      | EmptyString => false
      end
  end.

(** The separator occurs in [s]. *)
Fixpoint has_sep (s : string) : bool :=
  match s with
  | EmptyString => false
  | String a s' => Ascii.eqb a PyStr.slash || has_sep s'
  end.

(** ** Sample repositories *)

Definition readme : list Byte.byte := String.list_byte_of_string "hello git!".

(** References [/heads/main] and [/tags/v1]; the snapshot holds a file
    [README.md] of 10 bytes and a directory [src]. *)
Definition sample : Repository :=
  mkRepo
    (list_to_map [("refs/heads/main", 1%N); ("refs/tags/v1", 1%N)])
    (list_to_map
       [ (1%N, Commit 2%N);
         (2%N, Tree [mkEntry "README.md" 0x81a4 3%N; mkEntry "src" 0x4000 4%N]);
         (3%N, Blob readme);
         (4%N, Tree [mkEntry "main.c" 0x81a4 5%N]);
         (5%N, Blob []) ])
    (mkStat 0x41ed 42 1 2 1000 1000 4096 0 0 0).

(** The root tree of the sample snapshot. *)
Definition sample_root : GitObject :=
  Tree [mkEntry "README.md" 0x81a4 3%N; mkEntry "src" 0x4000 4%N].

(** A reference table in which one name is a directory prefix of
    another. *)
Definition overlapping : Repository :=
  mkRepo
    (list_to_map [("refs/a", 1%N); ("refs/a/b", 1%N)])
    (list_to_map [ (1%N, Commit 2%N); (2%N, Tree []) ])
    (mkStat 0x41ed 42 1 2 1000 1000 4096 0 0 0).

(** A reference table with a name whose first component begins with a
    dot, which git's reference naming rules do not produce. *)
Definition dotted : Repository :=
  mkRepo
    (list_to_map [("refs/.x/y", 1%N)])
    (list_to_map [ (1%N, Commit 2%N); (2%N, Tree []) ])
    (mkStat 0x41ed 42 1 2 1000 1000 4096 0 0 0).

(** Two branches, the name of one being a raw prefix of the other's. *)
Definition siblings : Repository :=
  mkRepo
    (list_to_map [("refs/heads/main", 1%N); ("refs/heads/main2", 1%N)])
    (list_to_map [ (1%N, Commit 2%N); (2%N, Tree [mkEntry "a" 0x81a4 3%N]);
                   (3%N, Blob []) ])
    (mkStat 0x41ed 42 1 2 1000 1000 4096 0 0 0).

(** The [path_len] of [get_path_children]: where the remainder of a
    reference under [path] starts. *)
Definition child_offset (path : string) : nat :=
  if String.eqb path "/" then O else String.length path.

(** The path of the entry [c] of the directory [path], as the kernel
    forms it. *)
Definition child_path (path c : string) : string :=
  if String.eqb path "/" then "/" +:+ c else path +:+ "/" +:+ c.

(** * Properties *)

(** ** Strings *)

Section StringFacts.

Lemma append_nil_l (t : string) : EmptyString +:+ t = t.
Proof. reflexivity. Qed.

Lemma append_cons (a : ascii) (s t : string) :
  String a s +:+ t = String a (s +:+ t).
Proof. reflexivity. Qed.

Lemma startswith_iff (s p : string) :
  PyStr.startswith s p = true <-> exists t, s = p +:+ t.
Proof.
  unfold PyStr.startswith. revert s.
  induction p as [|a p IH]; intros [|b s]; simpl.
  - split; [intros _; exists EmptyString; reflexivity | reflexivity].
  - split; [intros _; exists (String b s); reflexivity | reflexivity].
  - split; [discriminate | intros [t Ht]; discriminate].
  - destruct (Ascii.ascii_dec a b) as [->|Hne].
    + rewrite IH. split; intros [t Ht]; exists t;
        rewrite append_cons in *; congruence.
    + split; [discriminate |].
      intros [t Ht]. rewrite append_cons in Ht. congruence.
Qed.

Lemma startswith_app (p t : string) : PyStr.startswith (p +:+ t) p = true.
Proof. apply startswith_iff. eauto. Qed.

Lemma append_assoc (a b c : string) : (a +:+ b) +:+ c = a +:+ (b +:+ c).
Proof.
  induction a as [|x a IH]; [reflexivity |].
  rewrite !append_cons. congruence.
Qed.

Lemma append_empty_r (a : string) : a +:+ EmptyString = a.
Proof.
  induction a as [|x a IH]; [reflexivity |].
  rewrite append_cons. congruence.
Qed.

Lemma startswith_refl (s : string) : PyStr.startswith s s = true.
Proof.
  apply startswith_iff. exists EmptyString. symmetry. apply append_empty_r.
Qed.

Lemma startswith_trans (s p q : string) :
  PyStr.startswith s p = true -> PyStr.startswith p q = true ->
  PyStr.startswith s q = true.
Proof.
  rewrite !startswith_iff. intros [t ->] [u ->].
  exists (u +:+ t). apply append_assoc.
Qed.

Lemma from_app (p t : string) : PyStr.from (String.length p) (p +:+ t) = t.
Proof.
  induction p as [|x p IH]; [destruct t; reflexivity |].
  rewrite append_cons. simpl. exact IH.
Qed.

(** What is left after a slice is empty exactly when the slice starts at
    or past the end. *)
Lemma from_empty_iff (n : nat) (s : string) :
  PyStr.from n s = EmptyString <-> (String.length s <= n)%nat.
Proof.
  revert s. induction n as [|n IH]; intros [|a s]; simpl.
  - split; [lia | reflexivity].
  - split; [discriminate | intros; lia].
  - split; [intros; lia | reflexivity].
  - rewrite IH. lia.
Qed.

End StringFacts.

(** ** Bit masks *)

Section ModeFacts.

Lemma copy_stat_mode (st : Stat) (kwargs : list (StatField * Z)) :
  st_mode (copy_stat st kwargs) =
  Z.land (st_mode (replace st kwargs)) (Z.lnot write_bits).
Proof. reflexivity. Qed.

Lemma copy_stat_ino (st : Stat) (kwargs : list (StatField * Z)) :
  st_ino (copy_stat st kwargs) = 0.
Proof. reflexivity. Qed.

Lemma write_bits_cleared (m : Z) :
  Z.land (Z.land m (Z.lnot write_bits)) write_bits = 0.
Proof.
  rewrite <- Z.land_assoc, (Z.land_comm (Z.lnot write_bits)).
  rewrite Z.land_lnot_diag. apply Z.land_0_r.
Qed.

(** Clearing the write bits leaves the file-type bits alone. *)
Lemma S_ISDIR_clear (m : Z) :
  S_ISDIR (Z.land m (Z.lnot write_bits)) = S_ISDIR m.
Proof.
  unfold S_ISDIR. rewrite <- Z.land_assoc.
  replace (Z.land (Z.lnot write_bits) S_IFMT) with S_IFMT by reflexivity.
  reflexivity.
Qed.

(** [O_RDONLY] is zero, so masking with it always yields [O_RDONLY]. *)
Lemma land_O_RDONLY (flags : Z) : Z.land flags O_RDONLY = O_RDONLY.
Proof. unfold O_RDONLY. apply Z.land_0_r. Qed.

End ModeFacts.

(** ** [open] *)

(** C1 (the code departs from the claim): [open] is meant to refuse every
    request that is not read-only with access-denied. Since [O_RDONLY] is
    [0], the test [flags & O_RDONLY != O_RDONLY] never holds: [open] with
    the write flag on [/heads/main/README.md] returns the handle [0], as it
    does with the read-only flag, and no path and no flags value make it
    raise access-denied. *)
Theorem open_never_access_denied :
  open "/heads/main/README.md" O_WRONLY = Ok 0 /\
  open "/heads/main/README.md" O_RDONLY = Ok 0 /\
  forall path flags, open path flags <> Raise (FuseOSError EACCES).
Proof.
  split; [reflexivity | split; [reflexivity |]].
  intros path flags. unfold open.
  destruct (PyStr.startswith path "/."); [discriminate |].
  rewrite land_O_RDONLY. rewrite Z.eqb_refl. discriminate.
Qed.

(** ** Filtering a list *)

Section FilterFacts.

Context {A : Type} (f : A -> bool).

Lemma truthy_In (l : list A) (x : A) : In x l -> PyList.truthy l = true.
Proof. destruct l; [intros [] | reflexivity]. Qed.

Lemma filter_none (l : list A) :
  (forall x, In x l -> f x = false) -> List.filter f l = [].
Proof.
  induction l as [|a l IH]; intros H; [reflexivity |].
  simpl. rewrite (H a) by (left; reflexivity).
  apply IH. intros x Hx. apply H. right. exact Hx.
Qed.

(** Exactly one element of a duplicate-free list passes the test. *)
Lemma filter_single (l : list A) (r : A) :
  List.NoDup l -> In r l -> f r = true ->
  (forall x, In x l -> x <> r -> f x = false) ->
  List.filter f l = [r].
Proof.
  induction l as [|a l IH]; intros Hnd Hin Hr Hothers; [destruct Hin |].
  inversion Hnd as [|? ? Hnotin Hnd']; subst.
  destruct Hin as [-> | Hin].
  - simpl. rewrite Hr. f_equal.
    apply filter_none. intros x Hx. apply Hothers; [right; exact Hx |].
    intros ->. contradiction.
  - simpl. rewrite (Hothers a); [| left; reflexivity | intros ->; contradiction].
    apply IH; auto. intros x Hx. apply Hothers. right. exact Hx.
Qed.

(** Two different elements that pass the test both survive. *)
Lemma filter_two (l : list A) (r1 r2 : A) :
  In r1 l -> In r2 l -> r1 <> r2 -> f r1 = true -> f r2 = true ->
  (2 <= length (List.filter f l))%nat.
Proof.
  intros H1 H2 Hne Hf1 Hf2.
  assert (Hin : forall r, In r l -> f r = true -> In r (List.filter f l))
    by (intros r ? ?; apply filter_In; auto).
  pose proof (Hin r1 H1 Hf1) as G1. pose proof (Hin r2 H2 Hf2) as G2.
  destruct (List.filter f l) as [|a [|b m]]; simpl in *.
  - destruct G1.
  - destruct G1 as [<-|[]]. destruct G2 as [<-|[]]. contradiction.
  - lia.
Qed.

End FilterFacts.

(** ** The exposed reference names *)

Section RefsFacts.

Variable repo : Repository.

Lemma listall_references_NoDup : List.NoDup (listall_references repo).
Proof. apply NoDup_ListNoDup. apply NoDup_fst_map_to_list. Qed.

Lemma refs_In (r : string) :
  In r (refs repo) <->
  exists t, r = String "/" t /\ In ("refs/" +:+ t) (listall_references repo).
Proof.
  unfold refs. rewrite in_map_iff. split.
  - intros [q [Hq Hin]]. apply filter_In in Hin as [Hin Hpre].
    apply startswith_iff in Hpre as [t ->].
    exists t. split; [symmetry; exact Hq | exact Hin].
  - intros [t [-> Hin]]. exists ("refs/" +:+ t). split; [reflexivity |].
    apply filter_In. split; [exact Hin | apply startswith_app].
Qed.

(** Every exposed name begins with the separator. *)
Lemma refs_slash (r : string) :
  In r (refs repo) -> exists t, r = String "/" t.
Proof. intros H. apply refs_In in H as [t [-> _]]. eauto. Qed.

(** The names of a repository are distinct, and so are the exposed ones:
    stripping [refs] from names that all start with [refs/] keeps them
    apart. *)
Lemma refs_NoDup : List.NoDup (refs repo).
Proof.
  unfold refs. apply Finite.Injective_map_NoDup_in.
  - intros x y Hx Hy Heq.
    apply filter_In in Hx as [_ Hx]. apply filter_In in Hy as [_ Hy].
    apply startswith_iff in Hx as [t ->]. apply startswith_iff in Hy as [u ->].
    change (String "/" t = String "/" u) in Heq. congruence.
  - apply List.NoDup_filter. apply listall_references_NoDup.
Qed.

Lemma get_child_refs_In (path r : string) :
  In r (get_child_refs repo path) <->
  In r (refs repo) /\ PyStr.startswith r path = true.
Proof. unfold get_child_refs. rewrite filter_In. reflexivity. Qed.

(** A reference is among the references under itself. *)
Lemma get_child_refs_self (r : string) :
  In r (refs repo) -> In r (get_child_refs repo r).
Proof. intros H. apply get_child_refs_In. auto using startswith_refl. Qed.

Lemma refs_mem (path : string) :
  existsb (String.eqb path) (refs repo) = true <-> In path (refs repo).
Proof.
  rewrite existsb_exists. split.
  - intros [x [Hin Heq]]. apply String.eqb_eq in Heq. congruence.
  - intros H. exists path. split; [exact H | apply String.eqb_refl].
Qed.

End RefsFacts.

(** ** [getattr] *)

Section GetattrFacts.

Variable repo : Repository.

(** Whatever [getattr] returns went through [copy_stat]. *)
Lemma getattr_Ok_copy_stat (path : string) (st : Stat) :
  getattr repo path = Ok st ->
  exists kwargs, st = copy_stat (path_lstat repo) kwargs.
Proof.
  unfold getattr.
  destruct (PyStr.startswith path "/."); [discriminate |].
  destruct (PyList.truthy (get_child_refs repo path)).
  { intros [= <-]. eauto. }
  destruct (get_parent_ref repo path) as [ref|]; [simpl | discriminate].
  destruct (get_reference_commit repo ref) as [c|]; [simpl | discriminate].
  destruct (commit_tree repo c) as [t|]; [simpl | discriminate].
  destruct (git_tree_find repo t _) as [e|]; [simpl | discriminate].
  destruct (Z.land (filemode e) S_IFDIR =? S_IFDIR).
  { intros [= <-]. eauto. }
  destruct (repo_getitem repo (oid e)) as [b|]; [simpl | discriminate].
  destruct (blob_data b) as [d|]; [simpl | discriminate].
  intros [= <-]. eauto.
Qed.

(** A path with a reference under it is answered with the template. *)
Lemma getattr_child_refs (path r : string) :
  hidden path = false -> In r (get_child_refs repo path) ->
  getattr repo path = Ok (directory_template repo).
Proof.
  unfold getattr, hidden. intros -> Hin.
  rewrite (truthy_In _ _ Hin). reflexivity.
Qed.

(** A path that resolves to an entry, with no reference under it. *)
Lemma getattr_resolved (path : string) (e : TreeEntry) :
  hidden path = false -> get_child_refs repo path = [] ->
  resolves repo path e ->
  getattr repo path =
  if entry_is_directory e then Ok (directory_template repo)
  else blob ← repo_getitem repo (oid e);
       data ← blob_data blob;
       Ok (copy_stat (path_lstat repo)
             [(F_size, Z.of_nat (length data)); (F_mode, filemode e)]).
Proof.
  unfold getattr, hidden. intros -> -> (ref & c & t & Href & Hc & Ht & He).
  simpl. rewrite Href. simpl. rewrite Hc. simpl. rewrite Ht. simpl.
  rewrite He. reflexivity.
Qed.

End GetattrFacts.

(** C10: a non-hidden path that is a raw string prefix of an exposed
    reference name, even one that ends in the middle of a segment, is
    answered by [getattr] with the directory template, not with
    not-found. *)
Theorem getattr_raw_prefix_is_directory (repo : Repository) (P r : string) :
  hidden P = false ->
  In r (refs repo) ->
  PyStr.startswith r P = true ->
  getattr repo P = Ok (directory_template repo).
Proof.
  intros Hh Hin Hpre. apply (getattr_child_refs repo P r Hh).
  apply get_child_refs_In. auto.
Qed.

(** With [/heads/main] exposed, [/head] is reported as a directory. *)
Lemma getattr_raw_prefix_is_directory_witness :
  getattr sample "/head" = Ok (directory_template sample).
Proof.
  apply (getattr_raw_prefix_is_directory sample "/head" "/heads/main").
  - reflexivity.
  - vm_compute. right. left. reflexivity.
  - reflexivity.
Defined.

(** C8: every attribute record [getattr] returns has its write permission
    bits cleared and inode number zero; and on a non-hidden namespace node (a
    reference or an ancestor directory of one), with the repository's
    storage location being a directory, [getattr] returns a record whose
    mode is a directory's. *)
Theorem getattr_read_only_and_namespace_directory
    (repo : Repository) (path : string) :
  (forall st, getattr repo path = Ok st ->
     Z.land (st_mode st) write_bits = 0 /\ st_ino st = 0) /\
  (S_ISDIR (st_mode (path_lstat repo)) = true ->
   hidden path = false ->
   namespace_node repo path ->
   exists st, getattr repo path = Ok st /\ S_ISDIR (st_mode st) = true).
Proof.
  split.
  - intros st H. apply getattr_Ok_copy_stat in H as [kw ->].
    rewrite copy_stat_mode, copy_stat_ino. split; [| reflexivity].
    apply write_bits_cleared.
  - intros Hdir Hh (r & Hin & Hnode).
    exists (directory_template repo). split.
    + apply (getattr_child_refs repo path r Hh).
      apply get_child_refs_In. split; [exact Hin |].
      destruct Hnode as [-> | [Hanc | ->]].
      * apply startswith_refl.
      * apply (startswith_trans _ _ _ Hanc), startswith_app.
      * apply refs_slash in Hin as [t ->].
        apply startswith_iff. exists t. reflexivity.
    + unfold directory_template. rewrite copy_stat_mode.
      rewrite S_ISDIR_clear. exact Hdir.
Qed.

(** On the sample repository: the record returned for the file carries no
    write bit and inode zero, and the reference [/heads/main], its ancestor
    [/heads] and the root are directories. *)
Lemma getattr_read_only_and_namespace_directory_witness :
  (exists st, getattr sample "/heads/main/README.md" = Ok st /\
     Z.land (st_mode st) write_bits = 0 /\ st_ino st = 0) /\
  (exists st, getattr sample "/heads/main" = Ok st /\
     S_ISDIR (st_mode st) = true) /\
  (exists st, getattr sample "/heads" = Ok st /\
     S_ISDIR (st_mode st) = true) /\
  (exists st, getattr sample "/" = Ok st /\ S_ISDIR (st_mode st) = true).
Proof.
  assert (Hmain : In "/heads/main" (refs sample))
    by (vm_compute; right; left; reflexivity).
  split; [| split; [| split]].
  - eexists. split; [vm_compute; reflexivity |].
    apply (proj1 (getattr_read_only_and_namespace_directory
                    sample "/heads/main/README.md")).
    vm_compute. reflexivity.
  - apply (proj2 (getattr_read_only_and_namespace_directory
                    sample "/heads/main")); [reflexivity | reflexivity |].
    exists "/heads/main". split; [exact Hmain | left; reflexivity].
  - apply (proj2 (getattr_read_only_and_namespace_directory
                    sample "/heads")); [reflexivity | reflexivity |].
    exists "/heads/main". split; [exact Hmain | right; left; reflexivity].
  - apply (proj2 (getattr_read_only_and_namespace_directory
                    sample "/")); [reflexivity | reflexivity |].
    exists "/heads/main". split; [exact Hmain | right; right; reflexivity].
Defined.

(** C2 as stated does not hold: for [README.md] of the sample snapshot,
    whose stored mode is [0100644], [getattr] reports [0100444], not the
    stored mode. *)
Lemma getattr_file_mode_verbatim_fails :
  ~ (forall repo path e data,
       hidden path = false ->
       get_child_refs repo path = [] ->
       resolves repo path e ->
       entry_is_directory e = false ->
       repo_getitem repo (oid e) = Ok (Blob data) ->
       exists st, getattr repo path = Ok st /\
         st_size st = Z.of_nat (length data) /\
         st_mode st = filemode e).
Proof.
  intros H.
  destruct (H sample "/heads/main/README.md"
              (mkEntry "README.md" 0x81a4 3%N) readme)
    as (st & Hst & _ & Hmode);
    try reflexivity.
  - exists "/heads/main", (Commit 2%N),
      (Tree [mkEntry "README.md" 0x81a4 3%N; mkEntry "src" 0x4000 4%N]).
    repeat split; vm_compute; reflexivity.
  - vm_compute in Hst. injection Hst as <-. discriminate Hmode.
Qed.

(** C2 (amended): for a non-hidden path with no reference under it that
    resolves to a snapshot file entry, [getattr] returns a record whose size
    is the blob's byte length and whose mode is the entry's stored mode with
    the write permission bits cleared; every other bit of the stored mode
    is kept. *)
Theorem getattr_file_size_and_mode
    (repo : Repository) (path : string) (e : TreeEntry)
    (data : list Byte.byte) :
  hidden path = false ->
  get_child_refs repo path = [] ->
  resolves repo path e ->
  entry_is_directory e = false ->
  repo_getitem repo (oid e) = Ok (Blob data) ->
  exists st, getattr repo path = Ok st /\
    st_size st = Z.of_nat (length data) /\
    st_mode st = Z.land (filemode e) (Z.lnot write_bits) /\
    Z.land (st_mode st) write_bits = 0 /\
    Z.lor (st_mode st) (Z.land (filemode e) write_bits) = filemode e.
Proof.
  intros Hh Hc Hres Hfile Hblob.
  rewrite (getattr_resolved repo path e Hh Hc Hres), Hfile, Hblob. simpl.
  eexists. split; [reflexivity |].
  split; [reflexivity |]. split; [reflexivity |].
  rewrite copy_stat_mode. simpl. split; [apply write_bits_cleared |].
  rewrite <- Z.land_lor_distr_r.
  rewrite (Z.lor_comm (Z.lnot write_bits)), Z.lor_lnot_diag.
  apply Z.land_m1_r.
Qed.

(** [README.md] of the sample snapshot: 10 bytes, mode [0100444]. *)
Lemma getattr_file_size_and_mode_witness :
  exists st, getattr sample "/heads/main/README.md" = Ok st /\
    st_size st = 10 /\
    st_mode st = Z.land 0x81a4 (Z.lnot write_bits) /\
    Z.land (st_mode st) write_bits = 0 /\
    Z.lor (st_mode st) (Z.land 0x81a4 write_bits) = 0x81a4.
Proof.
  apply (getattr_file_size_and_mode sample "/heads/main/README.md"
           (mkEntry "README.md" 0x81a4 3%N) readme); try reflexivity.
  exists "/heads/main", (Commit 2%N),
    (Tree [mkEntry "README.md" 0x81a4 3%N; mkEntry "src" 0x4000 4%N]).
  repeat split; vm_compute; reflexivity.
Defined.

(** ** Splitting paths *)

Section SplitFacts.

Lemma split_not_nil (sep : ascii) (s : string) : PyStr.split sep s <> [].
Proof.
  induction s as [|a s IH]; simpl; [discriminate |].
  destruct (Ascii.eqb a sep); [discriminate |].
  destruct (PyStr.split sep s); [contradiction | discriminate].
Qed.

(** A segment without separator, followed by a separator, is the first
    piece of the split. *)
Lemma split_segment (seg rest : string) :
  has_sep seg = false ->
  PyStr.split PyStr.slash (seg +:+ String PyStr.slash rest) =
  seg :: PyStr.split PyStr.slash rest.
Proof.
  induction seg as [|a seg IH]; intros H.
  - rewrite append_nil_l. simpl. reflexivity.
  - simpl in H. apply orb_false_elim in H as [Ha Hseg].
    rewrite append_cons. simpl. rewrite Ha, (IH Hseg). reflexivity.
Qed.

Lemma init_cons {A} (a : A) (l : list A) :
  l <> [] -> PyList.init (a :: l) = a :: PyList.init l.
Proof. destruct l; [contradiction | reflexivity]. Qed.

Lemma obj_getitem_missing (es : list TreeEntry) (seg : string) :
  (forall e, In e es -> name e <> seg) ->
  obj_getitem (Tree es) seg = Raise KeyError.
Proof.
  intros H. simpl.
  destruct (List.find _ es) as [e|] eqn:Hfind; [| reflexivity].
  apply find_some in Hfind as [Hin Heq].
  apply String.eqb_eq in Heq. destruct (H e Hin Heq).
Qed.

End SplitFacts.

(** ** [git_tree_find] *)

(** The guard [if t is not None] of the descent never fires: when the
    [reduce] returns at all, it returns an object. *)
Lemma reduce_descent_not_None (repo : Repository) (parts : list string)
    (t : GitObject) (r : option GitObject) :
  PyList.reduce
    (fun (t : option GitObject) part =>
       match t with
       | Some o => e ← obj_getitem o part; o' ← to_object repo e; Ok (Some o')
       | None => Ok None
       end) parts (Some t) = Ok r ->
  r <> None.
Proof.
  revert t. induction parts as [|p parts IH]; intros t; simpl.
  - intros [= <-]. discriminate.
  - destruct (obj_getitem t p) as [e|]; [simpl | discriminate].
    destruct (to_object repo e) as [o|]; [simpl | discriminate].
    apply IH.
Qed.

(** C3 (the code departs from the claim): a path whose first segment is
    followed by further segments and does not exist in the tree makes
    [git_tree_find] raise [KeyError], not not-found: the lookup happens
    inside the [reduce], outside the [try] that maps [KeyError] and
    [TypeError] to not-found. *)
Theorem git_tree_find_missing_intermediate
    (repo : Repository) (es : list TreeEntry) (seg rest : string) :
  has_sep seg = false ->
  (forall e, In e es -> name e <> seg) ->
  git_tree_find repo (Tree es) (seg +:+ "/" +:+ rest) = Raise KeyError.
Proof.
  intros Hseg Hmiss. unfold git_tree_find.
  change (seg +:+ "/" +:+ rest) with (seg +:+ String PyStr.slash rest).
  rewrite (split_segment seg rest Hseg).
  rewrite init_cons by apply split_not_nil.
  cbn [PyList.reduce]. rewrite (obj_getitem_missing es seg Hmiss).
  reflexivity.
Qed.

(** [nosuch/x] in the root tree of the sample snapshot. *)
Lemma git_tree_find_missing_intermediate_witness :
  git_tree_find sample sample_root "nosuch/x" = Raise KeyError.
Proof.
  apply (git_tree_find_missing_intermediate sample
           [mkEntry "README.md" 0x81a4 3%N; mkEntry "src" 0x4000 4%N]
           "nosuch" "x").
  - reflexivity.
  - intros e [<- | [<- | []]]; discriminate.
Defined.

(** Descending two levels into a file escapes as [TypeError]; one level
    into a file, a missing final segment and a missing final segment of a
    subtree are the cases the [try] covers. *)
Example git_tree_find_sample_errors :
  git_tree_find sample sample_root "README.md/x/y" = Raise TypeError /\
  git_tree_find sample sample_root "README.md/x" = not_found /\
  git_tree_find sample sample_root "nosuch" = not_found /\
  git_tree_find sample sample_root "src/nosuch" = not_found /\
  git_tree_find sample sample_root "src/main.c" = Ok (mkEntry "main.c" 0x81a4 5%N).
Proof. repeat split; vm_compute; reflexivity. Qed.

(** ** [get_parent_ref] *)

(** C5: for a reference [r] and a relative path [x] such that no other
    reference, followed by a separator, is a prefix of [r/x],
    [get_parent_ref] returns [r]; when no reference followed by a separator
    is a prefix of the path, or two different ones are, it fails with
    not-found. *)
Theorem get_parent_ref_owner (repo : Repository) :
  (forall r x,
     In r (refs repo) ->
     (forall r', In r' (refs repo) -> r' <> r ->
        PyStr.startswith (r +:+ "/" +:+ x) (r' +:+ "/") = false) ->
     get_parent_ref repo (r +:+ "/" +:+ x) = Ok r) /\
  (forall path,
     (forall r, In r (refs repo) ->
        PyStr.startswith path (r +:+ "/") = false) ->
     get_parent_ref repo path = not_found) /\
  (forall path r1 r2,
     In r1 (refs repo) -> In r2 (refs repo) -> r1 <> r2 ->
     PyStr.startswith path (r1 +:+ "/") = true ->
     PyStr.startswith path (r2 +:+ "/") = true ->
     get_parent_ref repo path = not_found).
Proof.
  split; [| split].
  - intros r x Hin Hothers. unfold get_parent_ref.
    rewrite (filter_single _ (refs repo) r); auto using refs_NoDup.
    rewrite <- append_assoc. apply startswith_app.
  - intros path Hnone. unfold get_parent_ref.
    rewrite filter_none by exact Hnone. reflexivity.
  - intros path r1 r2 H1 H2 Hne Hp1 Hp2. unfold get_parent_ref.
    pose proof (filter_two (fun r => PyStr.startswith path (r +:+ "/"))
                  (refs repo) r1 r2 H1 H2 Hne Hp1 Hp2) as Hlen.
    destruct (Nat.eqb_spec
                (length (List.filter
                           (fun r => PyStr.startswith path (r +:+ "/"))
                           (refs repo))) 1) as [Heq | _].
    + rewrite Heq in Hlen. lia.
    + reflexivity.
Qed.

(** [/heads/main/README.md] is owned by [/heads/main]; [/nosuch/x] has no
    owner; with [/a] and [/a/b] both exposed, [/a/b/c] has two candidate
    owners and none is picked. *)
Lemma get_parent_ref_owner_witness :
  get_parent_ref sample "/heads/main/README.md" = Ok "/heads/main" /\
  get_parent_ref sample "/nosuch/x" = not_found /\
  get_parent_ref overlapping "/a/b/c" = not_found.
Proof.
  split; [| split].
  - apply (proj1 (get_parent_ref_owner sample) "/heads/main" "README.md").
    + vm_compute. right. left. reflexivity.
    + vm_compute. intros r' [<- | [<- | []]] Hne;
        [reflexivity | destruct Hne; reflexivity].
  - apply (proj1 (proj2 (get_parent_ref_owner sample)) "/nosuch/x").
    vm_compute. intros r [<- | [<- | []]]; reflexivity.
  - apply (proj2 (proj2 (get_parent_ref_owner overlapping))
             "/a/b/c" "/a" "/a/b").
    + vm_compute. tauto.
    + vm_compute. tauto.
    + discriminate.
    + reflexivity.
    + reflexivity.
Defined.

(** ** [read] *)

Section SliceFacts.

Context {A : Type}.

(** For non-negative bounds the slice is the obvious sub-list. *)
Lemma slice_nonneg (l : list A) (offset size : Z) :
  0 <= offset -> 0 <= size ->
  PyList.slice l offset (offset + size) =
  take (Z.to_nat size) (drop (Z.to_nat offset) l).
Proof.
  intros Ho Hs. unfold PyList.slice, PyList.clamp.
  destruct (Z.ltb_spec offset 0); [lia |].
  destruct (Z.ltb_spec (offset + size) 0); [lia |].
  destruct (Z.leb_spec (Z.min (offset + size) (Z.of_nat (length l)))
              (Z.min offset (Z.of_nat (length l)))) as [Hle | Hlt].
  - destruct (Z.eq_dec size 0) as [-> | Hsz]; [reflexivity |].
    rewrite drop_ge by lia. symmetry. apply take_nil.
  - replace (Z.to_nat (Z.min offset (Z.of_nat (length l))))
      with (Z.to_nat offset) by lia.
    destruct (Z.le_gt_cases (offset + size) (Z.of_nat (length l))).
    + f_equal. lia.
    + rewrite !take_ge; [reflexivity | |]; rewrite length_drop; lia.
Qed.

End SliceFacts.

(** What [read] computes once the path has resolved to a blob. *)
Lemma read_resolved (repo : Repository) (path : string) (e : TreeEntry)
    (data : list Byte.byte) (size offset : Z) :
  hidden path = false ->
  resolves repo path e ->
  to_object repo e = Ok (Blob data) ->
  read repo path size offset =
  if (offset =? 0) && (Z.of_nat (length data) <=? size) then Ok data
  else Ok (PyList.slice data offset (offset + size)).
Proof.
  unfold read, hidden. intros -> (ref & c & t & Href & Hc & Ht & He) Hblob.
  rewrite Href. simpl. rewrite Hc. simpl. rewrite Ht. simpl.
  rewrite He. simpl. rewrite Hblob. reflexivity.
Qed.

(** C6: for a non-hidden path that resolves to a file with content [data]
    of length [L], and non-negative [size] and [offset], [read] returns the
    bytes of [data] at positions [offset] up to [offset + size], clipped to
    [L]: it has [min size (max 0 (L - offset))] bytes and its [i]-th byte is
    the byte of [data] at [offset + i]. [read] of [L] bytes at offset [0]
    returns [data] itself, and an offset at or beyond [L] gives the empty
    result, not an error. *)
Theorem read_byte_range (repo : Repository) (path : string) (e : TreeEntry)
    (data : list Byte.byte) (size offset : Z) :
  hidden path = false ->
  resolves repo path e ->
  to_object repo e = Ok (Blob data) ->
  0 <= size -> 0 <= offset ->
  exists out, read repo path size offset = Ok out /\
    out = take (Z.to_nat size) (drop (Z.to_nat offset) data) /\
    Z.of_nat (length out) =
      Z.min size (Z.max 0 (Z.of_nat (length data) - offset)) /\
    (forall i : nat, (i < length out)%nat ->
       out !! i = data !! (Z.to_nat offset + i)%nat) /\
    (offset = 0 -> size = Z.of_nat (length data) -> out = data) /\
    (Z.of_nat (length data) <= offset -> out = []).
Proof.
  intros Hh Hres Hblob Hs Ho.
  exists (take (Z.to_nat size) (drop (Z.to_nat offset) data)).
  split; [| split; [reflexivity | split; [| split; [| split]]]].
  - rewrite (read_resolved repo path e data size offset Hh Hres Hblob).
    destruct (Z.eqb_spec offset 0) as [-> | Hne]; simpl.
    + destruct (Z.leb_spec (Z.of_nat (length data)) size).
      * rewrite take_ge by (rewrite length_drop; lia). reflexivity.
      * rewrite <- (slice_nonneg data 0 size) by lia. reflexivity.
    + rewrite slice_nonneg by lia. reflexivity.
  - rewrite length_take, length_drop. lia.
  - intros i Hi. rewrite length_take in Hi.
    rewrite lookup_take_lt by lia. apply lookup_drop.
  - intros -> ->. rewrite take_ge by (rewrite length_drop; lia). reflexivity.
  - intros Hge. rewrite drop_ge by lia. apply take_nil.
Qed.

(** Reads of the 10-byte [README.md] of the sample snapshot: bytes 2 to 5,
    the whole file, and one byte at offset 10. *)
Lemma read_byte_range_witness :
  (exists out, read sample "/heads/main/README.md" 4 2 = Ok out /\
     out = String.list_byte_of_string "llo ") /\
  (exists out, read sample "/heads/main/README.md" 10 0 = Ok out /\
     out = readme) /\
  (exists out, read sample "/heads/main/README.md" 1 10 = Ok out /\
     out = []).
Proof.
  assert (Hres : resolves sample "/heads/main/README.md"
                   (mkEntry "README.md" 0x81a4 3%N)).
  { exists "/heads/main", (Commit 2%N), sample_root.
    repeat split; vm_compute; reflexivity. }
  split; [| split].
  - destruct (read_byte_range sample "/heads/main/README.md"
                (mkEntry "README.md" 0x81a4 3%N) readme 4 2)
      as (out & Hout & Heq & _); [reflexivity | exact Hres | reflexivity | lia | lia |].
    exists out. split; [exact Hout | rewrite Heq; reflexivity].
  - destruct (read_byte_range sample "/heads/main/README.md"
                (mkEntry "README.md" 0x81a4 3%N) readme 10 0)
      as (out & Hout & _ & _ & _ & Hall & _); [reflexivity | exact Hres | reflexivity | lia | lia |].
    exists out. split; [exact Hout | apply Hall; reflexivity].
  - destruct (read_byte_range sample "/heads/main/README.md"
                (mkEntry "README.md" 0x81a4 3%N) readme 1 10)
      as (out & Hout & _ & _ & _ & _ & Hempty); [reflexivity | exact Hres | reflexivity | lia | lia |].
    exists out. split; [exact Hout | apply Hempty; vm_compute; discriminate].
Defined.

(** ** [readdir] *)

Section ReaddirFacts.

Variable repo : Repository.

(** With no reference under the path there is nothing to list in the
    namespace. *)
Lemma get_path_children_no_refs (path : string) :
  get_child_refs repo path = [] -> get_path_children repo path = Ok [].
Proof.
  unfold get_path_children. intros ->. simpl.
  change (elements (∅ : gset string)) with (@nil string). reflexivity.
Qed.

Lemma not_a_ref (path : string) :
  get_child_refs repo path = [] ->
  existsb (String.eqb path) (refs repo) = false.
Proof.
  intros Hnone. destruct (existsb _ _) eqn:Hex; [| reflexivity].
  apply refs_mem, get_child_refs_self in Hex.
  rewrite Hnone in Hex. destruct Hex.
Qed.

(** A path below a reference, with no reference under it. *)
Lemma readdir_resolved (path : string) (e : TreeEntry) :
  get_child_refs repo path = [] ->
  resolves repo path e ->
  readdir repo path =
  if entry_is_directory e then
    subtree ← repo_getitem repo (oid e); git_tree_to_direntries subtree
  else Ok [].
Proof.
  intros Hnone (ref & c & t & Href & Hc & Ht & He). unfold readdir.
  rewrite (get_path_children_no_refs path Hnone). simpl.
  rewrite (not_a_ref path Hnone).
  rewrite Href. simpl. rewrite Hc. simpl. rewrite Ht. simpl.
  rewrite He. reflexivity.
Qed.

End ReaddirFacts.

(** What a successful [get_parent_ref] returns is a reference that,
    followed by a separator, is a prefix of the path. *)
Lemma get_parent_ref_Ok (repo : Repository) (path ref : string) :
  get_parent_ref repo path = Ok ref ->
  In ref (refs repo) /\ PyStr.startswith path (ref +:+ "/") = true.
Proof.
  unfold get_parent_ref.
  destruct (List.filter _ (refs repo)) as [|x [|y m]] eqn:Hm;
    try discriminate.
  intros [= <-].
  assert (Hin : In x (List.filter
                        (fun r => PyStr.startswith path (r +:+ "/"))
                        (refs repo)))
    by (rewrite Hm; left; reflexivity).
  apply filter_In in Hin. exact Hin.
Qed.

(** When no reference is a directory prefix of another, as git's storage
    of references enforces, a path that resolves below a reference has no
    reference under it. *)
Lemma resolves_no_child_refs (repo : Repository) (path : string)
    (e : TreeEntry) :
  (forall r1 r2, In r1 (refs repo) -> In r2 (refs repo) ->
     PyStr.startswith r2 (r1 +:+ "/") = false) ->
  resolves repo path e ->
  get_child_refs repo path = [].
Proof.
  intros Hflat (ref & c & t & Href & _).
  apply get_parent_ref_Ok in Href as [Hin Hpre].
  apply filter_none. intros r Hr.
  destruct (PyStr.startswith r path) eqn:Hrp; [| reflexivity].
  rewrite <- (Hflat ref r Hin Hr). symmetry.
  exact (startswith_trans _ _ _ Hrp Hpre).
Qed.

(** C9: for a path with no reference under it that resolves, through its
    owning reference and the tree descent, to a file entry, [readdir]
    returns the empty listing and raises nothing; when it resolves to a
    directory entry, [readdir] returns the names of the entries of its
    subtree. *)
Theorem readdir_file_and_directory
    (repo : Repository) (path : string) (e : TreeEntry) :
  get_child_refs repo path = [] ->
  resolves repo path e ->
  (entry_is_directory e = false -> readdir repo path = Ok []) /\
  (forall es, entry_is_directory e = true ->
     repo_getitem repo (oid e) = Ok (Tree es) ->
     readdir repo path = Ok (map name es)).
Proof.
  intros Hnone Hres. rewrite (readdir_resolved repo path e Hnone Hres).
  split.
  - intros ->. reflexivity.
  - intros es -> ->. reflexivity.
Qed.

(** In the sample snapshot, listing the file [README.md] gives nothing and
    listing the directory [src] gives [main.c]. *)
Lemma readdir_file_and_directory_witness :
  readdir sample "/heads/main/README.md" = Ok [] /\
  readdir sample "/heads/main/src" = Ok ["main.c"].
Proof.
  split.
  - destruct (readdir_file_and_directory sample "/heads/main/README.md"
                (mkEntry "README.md" 0x81a4 3%N)) as [Hfile _].
    + reflexivity.
    + exists "/heads/main", (Commit 2%N), sample_root.
      repeat split; vm_compute; reflexivity.
    + apply Hfile. reflexivity.
  - destruct (readdir_file_and_directory sample "/heads/main/src"
                (mkEntry "src" 0x4000 4%N)) as [_ Hdir].
    + reflexivity.
    + exists "/heads/main", (Commit 2%N), sample_root.
      repeat split; vm_compute; reflexivity.
    + apply (Hdir [mkEntry "main.c" 0x81a4 5%N]); reflexivity.
Defined.

(** ** Hidden paths *)

Section HiddenFacts.

Variable repo : Repository.
Hypothesis refs_not_hidden : forall r, In r (refs repo) -> hidden r = false.

Lemma hidden_iff (s : string) :
  hidden s = true <-> exists t, s = String "/" (String "." t).
Proof. unfold hidden. rewrite startswith_iff. reflexivity. Qed.

(** No reference lies under a hidden path. *)
Lemma hidden_no_child_refs (path : string) :
  hidden path = true -> get_child_refs repo path = [].
Proof.
  intros Hh. apply filter_none. intros r Hin.
  destruct (PyStr.startswith r path) eqn:Hpre; [| reflexivity].
  apply hidden_iff in Hh as [u ->].
  apply startswith_iff in Hpre as [t ->].
  assert (hidden (String "/" (String "." u) +:+ t) = true) as Habs
    by (apply hidden_iff; exists (u +:+ t); reflexivity).
  rewrite (refs_not_hidden _ Hin) in Habs. discriminate.
Qed.

(** No reference owns a hidden path. *)
Lemma hidden_no_parent_ref (path : string) :
  hidden path = true -> get_parent_ref repo path = not_found.
Proof.
  intros Hh. unfold get_parent_ref. rewrite filter_none; [reflexivity |].
  intros r Hin.
  destruct (PyStr.startswith path (r +:+ "/")) eqn:Hpre; [| reflexivity].
  apply hidden_iff in Hh as [u ->].
  apply startswith_iff in Hpre as [t Ht].
  pose proof (refs_not_hidden _ Hin) as Hr.
  apply refs_slash in Hin as [r' ->].
  rewrite !append_cons in Ht. injection Ht as Ht.
  destruct r' as [|c r'].
  - rewrite append_nil_l, append_cons in Ht. discriminate.
  - rewrite !append_cons in Ht. injection Ht as <- _.
    assert (hidden (String "/" (String "." r')) = true) as Habs
      by (apply hidden_iff; eauto).
    rewrite Hr in Habs. discriminate.
Qed.

Lemma readdir_hidden (path : string) :
  hidden path = true -> readdir repo path = not_found.
Proof.
  intros Hh. pose proof (hidden_no_child_refs path Hh) as Hnone.
  unfold readdir. rewrite (get_path_children_no_refs repo path Hnone).
  simpl. rewrite (not_a_ref repo path Hnone).
  rewrite (hidden_no_parent_ref path Hh). reflexivity.
Qed.

End HiddenFacts.

(** C4 as stated does not hold: [readdir] has no hidden-entry test, and
    with a reference named [refs/.x/y] it lists the hidden path [/.x]. *)
Lemma readdir_hidden_not_refused :
  ~ (forall repo path, hidden path = true ->
       getattr repo path = not_found /\
       (forall flags, open path flags = not_found) /\
       (forall size offset, read repo path size offset = not_found) /\
       readdir repo path = not_found).
Proof.
  intros H. destruct (H dotted "/.x" eq_refl) as (_ & _ & _ & Hdir).
  vm_compute in Hdir. discriminate Hdir.
Qed.

(** C4 (amended): [getattr], [open] and [read] refuse every hidden path
    with not-found before looking at the repository. [readdir] makes no
    such test; it answers not-found for a hidden path whenever no exposed
    reference name is itself hidden. *)
Theorem hidden_paths_not_found (repo : Repository) (path : string) :
  hidden path = true ->
  getattr repo path = not_found /\
  (forall flags, open path flags = not_found) /\
  (forall size offset, read repo path size offset = not_found) /\
  ((forall r, In r (refs repo) -> hidden r = false) ->
   readdir repo path = not_found).
Proof.
  intros Hh. repeat split.
  - unfold getattr. unfold hidden in Hh. rewrite Hh. reflexivity.
  - intros flags. unfold open. unfold hidden in Hh. rewrite Hh. reflexivity.
  - intros size offset. unfold read. unfold hidden in Hh. rewrite Hh.
    reflexivity.
  - intros Hrefs. apply readdir_hidden; assumption.
Qed.

(** The probe [/.git] on the sample repository. *)
Lemma hidden_paths_not_found_witness :
  getattr sample "/.git" = not_found /\
  (forall flags, open "/.git" flags = not_found) /\
  (forall size offset, read sample "/.git" size offset = not_found) /\
  readdir sample "/.git" = not_found.
Proof.
  destruct (hidden_paths_not_found sample "/.git" eq_refl)
    as (Ha & Ho & Hr & Hd).
  split; [exact Ha | split; [exact Ho | split; [exact Hr |]]].
  apply Hd. vm_compute. intros r [<- | [<- | []]]; reflexivity.
Defined.

(** ** [get_path_children] *)

Section ChildrenFacts.

Lemma getitem_1 {A} (a b : A) (l : list A) :
  PyList.getitem (a :: b :: l) 1 = Ok b.
Proof.
  unfold PyList.getitem. cbn [length].
  change (1 <? 0) with false. cbv beta iota zeta.
  destruct (Z.leb_spec (Z.of_nat (S (S (length l)))) 1); [lia |].
  reflexivity.
Qed.

Lemma push_hd (a : ascii) (l1 l2 : list string) :
  hd_error l1 = hd_error l2 ->
  hd_error (PyStr.push a l1) = hd_error (PyStr.push a l2).
Proof.
  destruct l1, l2; simpl; intros H; try discriminate; congruence.
Qed.

(** Limiting the number of splits does not change the first piece. *)
Lemma split_max_hd (sep : ascii) (s : string) (n : nat) :
  hd_error (PyStr.split_max sep s (S n)) = hd_error (PyStr.split sep s).
Proof.
  induction s as [|a s IH]; simpl; [reflexivity |].
  destruct (Ascii.eqb a sep); [reflexivity |].
  apply push_hd, IH.
Qed.

(** The piece [get_path_children] selects and the first segment of the
    specification agree on a relative path that begins with a non-empty
    segment. *)
Lemma second_piece_first_segment (c : ascii) (rest : string) :
  Ascii.eqb c PyStr.slash = false ->
  exists seg,
    PyList.getitem
      (PyStr.split_max PyStr.slash (String PyStr.slash (String c rest)) 2) 1
    = Ok seg /\
    first_segment (String c rest) = Some seg /\
    first_segment (String PyStr.slash (String c rest)) = Some seg.
Proof.
  intros Hc. unfold first_segment.
  cbn [PyStr.split_max PyStr.split]. rewrite Ascii.eqb_refl, Hc.
  pose proof (split_max_hd PyStr.slash rest 0) as Hhd.
  pose proof (split_not_nil PyStr.slash rest) as Hnil.
  destruct (PyStr.split_max PyStr.slash rest 1) as [|h t] eqn:Hmax;
    destruct (PyStr.split PyStr.slash rest) as [|h' t'] eqn:Hsplit;
    try contradiction; try discriminate.
  simpl in Hhd. injection Hhd as ->.
  exists (String c h'). cbn [PyStr.push].
  rewrite getitem_1. simpl. auto.
Qed.

(** A list comprehension with a condition whose element expression never
    raises is a filtering map. *)
Lemma comprehension_omap {A B} (f : A -> Result B) (g : A -> option B)
    (p : A -> bool) (l : list A) :
  (forall a, In a l ->
     if p a then exists b, f a = Ok b /\ g a = Some b else g a = None) ->
  PyList.comprehension f (List.filter p l) = Ok (omap g l).
Proof.
  induction l as [|a l IH]; intros H; [reflexivity |].
  pose proof (H a (or_introl eq_refl)) as Ha.
  assert (IH' := IH (fun x Hx => H x (or_intror Hx))).
  cbn [List.filter omap list_omap]. destruct (p a).
  - destruct Ha as (b & Hf & Hg). cbn [PyList.comprehension].
    rewrite Hf, Hg, IH'. reflexivity.
  - rewrite Ha. exact IH'.
Qed.

End ChildrenFacts.

Section DirectChildren.

Variable repo : Repository.

(** Every reference lies under the root. *)
Lemma get_child_refs_root : get_child_refs repo "/" = refs repo.
Proof.
  unfold get_child_refs.
  assert (H : forall r, In r (refs repo) -> PyStr.startswith r "/" = true).
  { intros r Hin. apply refs_slash in Hin as [t ->].
    apply startswith_iff. exists t. reflexivity. }
  induction (refs repo) as [|a l IH]; [reflexivity |].
  simpl. rewrite (H a) by (left; reflexivity).
  f_equal. apply IH. intros r Hr. apply H. right. exact Hr.
Qed.

(** On a reference that [path] meets at a segment boundary, the element
    the comprehension computes is the first segment after [path]; a
    reference with nothing after [path] is skipped by both. *)
Lemma boundary_element (path r : string) :
  on_boundary path r = true ->
  let path_len := if String.eqb path "/" then O else String.length path in
  if Nat.ltb path_len (String.length r) then
    exists seg,
      PyList.getitem
        (PyStr.split_max PyStr.slash (PyStr.from path_len r) 2) 1 = Ok seg /\
      first_segment (PyStr.from (String.length path) r) = Some seg
  else first_segment (PyStr.from (String.length path) r) = None.
Proof.
  unfold on_boundary. intros Hb. cbv zeta in *.
  set (path_len := if String.eqb path "/" then O else String.length path)
    in *.
  destruct (PyStr.from path_len r) as [|a rest] eqn:Hfrom.
  - (* nothing of [r] is left after [path] *)
    apply from_empty_iff in Hfrom as Hlen.
    destruct (Nat.ltb_spec path_len (String.length r)); [lia |].
    replace (PyStr.from (String.length path) r) with EmptyString;
      [reflexivity |].
    symmetry. apply from_empty_iff. subst path_len.
    destruct (String.eqb path "/"); [| exact Hlen].
    assert (String.length r = O) by lia.
    destruct r; [simpl; lia | discriminate].
  - (* a separator and a non-empty segment follow *)
    apply andb_prop in Hb as [Ha Hrest].
    apply Ascii.eqb_eq in Ha. subst a.
    destruct rest as [|c rest]; [discriminate |].
    apply negb_true_iff in Hrest.
    destruct (Nat.ltb_spec path_len (String.length r)) as [_ | Hge].
    2:{ apply from_empty_iff in Hge. congruence. }
    destruct (second_piece_first_segment c rest Hrest)
      as (seg & Hcode & Hroot & Hinner).
    exists seg. split; [exact Hcode |].
    subst path_len. destruct (String.eqb_spec path "/") as [-> | _].
    + change (PyStr.from 0 r) with r in Hfrom. subst r. exact Hroot.
    + rewrite Hfrom. exact Hinner.
Qed.

End DirectChildren.

(** C7 as stated does not hold for every path: with [/heads/main] exposed,
    the raw prefix [/head] lists [main], while stripping [/head] and taking
    the first remaining segment gives [s]. *)
Lemma get_path_children_mid_segment_differs :
  ~ (forall repo path,
       exists l, get_path_children repo path = Ok l /\
         (list_to_set l : gset string) = direct_children_spec repo path).
Proof.
  intros H. destruct (H sample "/head") as (l & Hl & Heq).
  vm_compute in Hl. injection Hl as <-.
  apply (f_equal (fun X : gset string => bool_decide ("main" ∈ X))) in Heq.
  vm_compute in Heq. discriminate Heq.
Qed.

(** C7 (amended): for every path, the root included, that meets each
    reference under it at a segment boundary (the reference ends there, or
    continues with a separator and a non-empty segment; for the root, the
    reference name is a separator and a non-empty first segment),
    [get_path_children] returns, without duplicates, exactly the set
    obtained by stripping the path from each reference under it, splitting
    the remainder on the separator and taking the first segment. *)
Theorem get_path_children_direct_children (repo : Repository) (path : string) :
  (forall r, In r (get_child_refs repo path) -> on_boundary path r = true) ->
  exists l, get_path_children repo path = Ok l /\
    NoDup l /\
    (list_to_set l : gset string) = direct_children_spec repo path.
Proof.
  intros Hb. unfold get_path_children, direct_children_spec.
  rewrite (comprehension_omap _
             (fun r => first_segment (PyStr.from (String.length path) r))).
  - simpl. eexists. split; [reflexivity |].
    split; [apply NoDup_elements | apply list_to_set_elements_L].
  - intros r Hr. exact (boundary_element path r (Hb r Hr)).
Qed.

(** With references [/heads/main] and [/tags/v1], the root lists [heads]
    and [tags], and [/heads] lists [main]. *)
Lemma get_path_children_direct_children_witness :
  (exists l, get_path_children sample "/" = Ok l /\ NoDup l /\
     (list_to_set l : gset string) = {[ "heads"; "tags" ]}) /\
  (exists l, get_path_children sample "/heads" = Ok l /\ NoDup l /\
     (list_to_set l : gset string) = {[ "main" ]}).
Proof.
  split.
  - destruct (get_path_children_direct_children sample "/")
      as (l & Hl & Hnd & Hset).
    + vm_compute. intros r [<- | [<- | []]]; reflexivity.
    + exists l. split; [exact Hl | split; [exact Hnd |]].
      rewrite Hset. vm_compute. reflexivity.
  - destruct (get_path_children_direct_children sample "/heads")
      as (l & Hl & Hnd & Hset).
    + vm_compute. intros r [<- | []]; reflexivity.
    + exists l. split; [exact Hl | split; [exact Hnd |]].
      rewrite Hset. vm_compute. reflexivity.
Defined.

(** A raw prefix that stops inside the last segment of a reference makes
    the comprehension raise [IndexError]. *)
Example get_path_children_inside_last_segment :
  get_path_children sample "/heads/ma" = Raise IndexError.
Proof. vm_compute. reflexivity. Qed.


(** * Further properties of the code *)

(** ** The reference table and the exposed names *)

Lemma listall_references_In (repo : Repository) (q : string) :
  In q (listall_references repo) <-> is_Some (references repo !! q).
Proof.
  unfold listall_references. rewrite <- list_elem_of_In, list_elem_of_fmap.
  split.
  - intros [[k o] [-> Hin]]. apply elem_of_map_to_list in Hin. eauto.
  - intros [o Ho]. exists (q, o). split; [reflexivity |].
    apply elem_of_map_to_list. exact Ho.
Qed.

(** The exposed names are pairwise distinct, and a name is exposed exactly
    when it begins with the separator and, with [refs] put back in front,
    is a reference of the repository; references outside [refs/] are not
    exposed. *)
Theorem refs_exposed_names (repo : Repository) :
  List.NoDup (refs repo) /\
  forall r, In r (refs repo) <->
    PyStr.startswith r "/" = true /\
    is_Some (references repo !! ("refs" +:+ r)).
Proof.
  split; [apply refs_NoDup |].
  intros r. rewrite refs_In. split.
  - intros (t & -> & Hin). split.
    + apply startswith_iff. exists t. reflexivity.
    + apply listall_references_In. exact Hin.
  - intros [Hpre Hsome]. apply startswith_iff in Hpre as [t ->].
    exists t. split; [reflexivity |].
    apply listall_references_In. exact Hsome.
Qed.

(** [/heads/main] is exposed by the sample repository because it begins
    with the separator and [refs/heads/main] is one of its references. *)
Lemma refs_exposed_names_witness : In "/heads/main" (refs sample).
Proof.
  apply (proj2 (refs_exposed_names sample) "/heads/main").
  split; [reflexivity | vm_compute; eauto].
Defined.



(** ** Ownership of a path *)

Lemma from_after_sep (ref t : string) :
  PyStr.from (String.length ref + 1) (ref +:+ String "/" t) = t.
Proof.
  induction ref as [|a ref IH]; [reflexivity |].
  rewrite append_cons. exact IH.
Qed.

(** When [get_parent_ref] returns, it returns an exposed name, and the path
    is that name, a separator, and the relative path the dispatcher hands
    to the tree descent. When it fails, it fails with not-found. *)
Theorem get_parent_ref_result (repo : Repository) (path : string) :
  (forall ref, get_parent_ref repo path = Ok ref ->
     In ref (refs repo) /\
     path = ref +:+ "/" +:+ PyStr.from (String.length ref + 1) path) /\
  (forall e, get_parent_ref repo path = Raise e -> e = FuseOSError ENOENT).
Proof.
  split.
  - intros ref H. apply get_parent_ref_Ok in H as [Hin Hpre].
    split; [exact Hin |].
    apply startswith_iff in Hpre as [t ->].
    rewrite append_assoc.
    change ("/" +:+ t) with (String "/" t).
    rewrite from_after_sep. reflexivity.
  - intros e. unfold get_parent_ref.
    destruct (List.filter _ (refs repo)) as [|x [|y m]]; simpl.
    + intros [= <-]. reflexivity.
    + discriminate.
    + intros [= <-]. reflexivity.
Qed.

Lemma get_parent_ref_result_witness :
  (In "/heads/main" (refs sample) /\
   "/heads/main/src/main.c" =
   "/heads/main" +:+ "/" +:+
     PyStr.from (String.length "/heads/main" + 1) "/heads/main/src/main.c") /\
  FuseOSError ENOENT = FuseOSError ENOENT.
Proof.
  split.
  - apply (proj1 (get_parent_ref_result sample "/heads/main/src/main.c")).
    vm_compute. reflexivity.
  - apply (proj2 (get_parent_ref_result sample "/nosuch/x")).
    vm_compute. reflexivity.
Defined.

(** ** References under a path *)

(** Lengthening a path can only shrink the set of references under it. *)
Theorem get_child_refs_antitone (repo : Repository) (p q : string) :
  PyStr.startswith q p = true ->
  incl (get_child_refs repo q) (get_child_refs repo p).
Proof.
  intros Hqp r Hr. apply get_child_refs_In in Hr as [Hin Hrq].
  apply get_child_refs_In. split; [exact Hin |].
  exact (startswith_trans _ _ _ Hrq Hqp).
Qed.

Lemma get_child_refs_antitone_witness :
  incl (get_child_refs sample "/heads/main") (get_child_refs sample "/heads").
Proof.
  apply (get_child_refs_antitone sample "/heads" "/heads/main").
  reflexivity.
Defined.

(** ** The tree descent *)

Section DescentFacts.

Variable repo : Repository.

Lemma split_no_sep (s : string) :
  has_sep s = false -> PyStr.split PyStr.slash s = [s].
Proof.
  induction s as [|a s IH]; [reflexivity |].
  simpl. intros H. apply orb_false_elim in H as [Ha Hs].
  rewrite Ha, (IH Hs). reflexivity.
Qed.

Lemma nth_error_last {A} (d a : A) (l : list A) :
  nth_error (a :: l) (length l) = Some (List.last (a :: l) d).
Proof.
  revert a. induction l as [|b l IH]; intros a; [reflexivity |].
  cbn [length nth_error]. rewrite IH. reflexivity.
Qed.

(** Index [-1] of a non-empty list is its last element. *)
Lemma getitem_last {A} (d : A) (l : list A) :
  l <> [] -> PyList.getitem l (-1) = Ok (List.last l d).
Proof.
  destruct l as [|a l]; [contradiction |]. intros _.
  unfold PyList.getitem. change (-1 <? 0) with true. cbv beta iota zeta.
  cbn [length].
  destruct (Z.ltb_spec (-1 + Z.of_nat (S (length l))) 0); [lia |].
  destruct (Z.leb_spec (Z.of_nat (S (length l)))
              (-1 + Z.of_nat (S (length l)))); [lia |].
  cbn [orb].
  replace (Z.to_nat (-1 + Z.of_nat (S (length l)))) with (length l) by lia.
  rewrite (nth_error_last d). reflexivity.
Qed.

Lemma last_cons {A} (d a : A) (l : list A) :
  l <> [] -> List.last (a :: l) d = List.last l d.
Proof. destruct l; [contradiction | reflexivity]. Qed.

(** One step of the descent: the first segment is looked up in the tree,
    its object fetched, and the rest of the path resolved from there. An
    exception of the first two steps escapes as it is. *)
Lemma git_tree_find_segment (tree : GitObject) (seg rest : string) :
  has_sep seg = false ->
  git_tree_find repo tree (seg +:+ "/" +:+ rest) =
  (e ← obj_getitem tree seg;
   o ← to_object repo e;
   git_tree_find repo o rest).
Proof.
  intros Hseg. unfold git_tree_find.
  change (seg +:+ "/" +:+ rest) with (seg +:+ String PyStr.slash rest).
  rewrite (split_segment seg rest Hseg).
  pose proof (split_not_nil PyStr.slash rest) as Hnil.
  rewrite init_cons by exact Hnil.
  cbn [PyList.reduce].
  destruct (obj_getitem tree seg) as [e | x]; [| reflexivity].
  cbn [mbind Result_bind bind].
  destruct (to_object repo e) as [o | x]; [| reflexivity].
  cbn [mbind Result_bind bind].
  rewrite (getitem_last EmptyString (seg :: _)) by discriminate.
  rewrite (getitem_last EmptyString (PyStr.split PyStr.slash rest))
    by exact Hnil.
  rewrite last_cons by exact Hnil. reflexivity.
Qed.

(** A path of one segment is looked up in the tree it starts from. *)
Lemma git_tree_find_leaf (tree : GitObject) (seg : string) :
  has_sep seg = false ->
  git_tree_find repo tree seg =
  except_type_key_error (obj_getitem tree seg).
Proof.
  intros Hseg. unfold git_tree_find. rewrite (split_no_sep seg Hseg).
  reflexivity.
Qed.

(** What the [reduce] of the descent can raise. *)
Lemma reduce_descent_raise (parts : list string) (t : GitObject) (x : PyExc) :
  PyList.reduce
    (fun (t : option GitObject) part =>
       match t with
       | Some o => e ← obj_getitem o part; o' ← to_object repo e; Ok (Some o')
       | None => Ok None
       end) parts (Some t) = Raise x ->
  x = KeyError \/ x = TypeError.
Proof.
  revert t. induction parts as [|p parts IH]; intros t; simpl;
    [discriminate |].
  destruct (obj_getitem t p) as [e | y] eqn:Hget; simpl.
  - destruct (to_object repo e) as [o | y] eqn:Hobj; simpl; [apply IH |].
    unfold to_object, repo_getitem in Hobj.
    destruct (objects repo !! oid e); [discriminate |].
    injection Hobj as <-. intros [= <-]. auto.
  - destruct t as [c | es | d | g]; simpl in Hget;
      try (injection Hget as <-; intros [= <-]; auto).
    destruct (List.find _ es); [discriminate |].
    injection Hget as <-. intros [= <-]. auto.
Qed.

Lemma obj_getitem_name (o : GitObject) (part : string) (e : TreeEntry) :
  obj_getitem o part = Ok e ->
  name e = part /\ exists es, o = Tree es /\ In e es.
Proof.
  destruct o as [c | es | d | g]; simpl; try discriminate.
  destruct (List.find _ es) as [e' |] eqn:Hfind; [| discriminate].
  intros [= <-]. apply find_some in Hfind as [Hin Heq].
  apply String.eqb_eq in Heq. eauto.
Qed.

End DescentFacts.

(** A relative path of a single segment resolves to the first entry of
    that name in the tree, and fails with not-found when there is none. *)
Theorem git_tree_find_single_segment
    (repo : Repository) (es : list TreeEntry) (seg : string) :
  has_sep seg = false ->
  git_tree_find repo (Tree es) seg =
  match List.find (fun e => String.eqb (name e) seg) es with
  | Some e => Ok e
  | None => not_found
  end.
Proof.
  intros Hseg. rewrite (git_tree_find_leaf repo (Tree es) seg Hseg).
  simpl. destruct (List.find _ es); reflexivity.
Qed.

Lemma git_tree_find_single_segment_witness :
  git_tree_find sample sample_root "src" = Ok (mkEntry "src" 0x4000 4%N).
Proof.
  apply (git_tree_find_single_segment sample
           [mkEntry "README.md" 0x81a4 3%N; mkEntry "src" 0x4000 4%N] "src").
  reflexivity.
Defined.

(** Resolving [seg/rest] from a tree that holds [seg] is resolving [rest]
    from the object [seg] points to. *)
Theorem git_tree_find_descend
    (repo : Repository) (tree sub : GitObject) (e : TreeEntry)
    (seg rest : string) :
  has_sep seg = false ->
  obj_getitem tree seg = Ok e ->
  to_object repo e = Ok sub ->
  git_tree_find repo tree (seg +:+ "/" +:+ rest) =
  git_tree_find repo sub rest.
Proof.
  intros Hseg He Hsub.
  rewrite (git_tree_find_segment repo tree seg rest Hseg), He. simpl.
  rewrite Hsub. reflexivity.
Qed.

Lemma git_tree_find_descend_witness :
  git_tree_find sample sample_root ("src" +:+ "/" +:+ "main.c") =
  git_tree_find sample (Tree [mkEntry "main.c" 0x81a4 5%N]) "main.c".
Proof.
  apply (git_tree_find_descend sample sample_root
           (Tree [mkEntry "main.c" 0x81a4 5%N])
           (mkEntry "src" 0x4000 4%N) "src" "main.c");
    reflexivity.
Defined.

(** A path that goes one segment below a file fails with not-found; a path
    that goes two or more segments below a file raises [TypeError]. *)
Theorem git_tree_find_below_file
    (repo : Repository) (tree : GitObject) (e : TreeEntry)
    (d : list Byte.byte) (seg x : string) :
  has_sep seg = false ->
  has_sep x = false ->
  obj_getitem tree seg = Ok e ->
  to_object repo e = Ok (Blob d) ->
  git_tree_find repo tree (seg +:+ "/" +:+ x) = not_found /\
  forall rest,
    git_tree_find repo tree (seg +:+ "/" +:+ x +:+ "/" +:+ rest) =
    Raise TypeError.
Proof.
  intros Hseg Hx He Hblob. split.
  - rewrite (git_tree_find_segment repo tree seg x Hseg), He. simpl.
    rewrite Hblob. simpl.
    rewrite (git_tree_find_leaf repo (Blob d) x Hx). reflexivity.
  - intros rest.
    rewrite (git_tree_find_segment repo tree seg _ Hseg), He. simpl.
    rewrite Hblob. simpl.
    rewrite (git_tree_find_segment repo (Blob d) x rest Hx). reflexivity.
Qed.

Lemma git_tree_find_below_file_witness :
  git_tree_find sample sample_root ("README.md" +:+ "/" +:+ "x") = not_found /\
  forall rest,
    git_tree_find sample sample_root
      ("README.md" +:+ "/" +:+ "x" +:+ "/" +:+ rest) = Raise TypeError.
Proof.
  apply (git_tree_find_below_file sample sample_root
           (mkEntry "README.md" 0x81a4 3%N) readme "README.md" "x");
    reflexivity.
Defined.

(** The entry [git_tree_find] returns bears the last segment of the path
    as its name. *)
Theorem git_tree_find_entry_name
    (repo : Repository) (tree : GitObject) (path : string) (e : TreeEntry) :
  git_tree_find repo tree path = Ok e ->
  name e = List.last (PyStr.split PyStr.slash path) EmptyString.
Proof.
  unfold git_tree_find.
  destruct (PyList.reduce _ _ _) as [t | x]; [simpl | discriminate].
  rewrite (getitem_last EmptyString) by apply split_not_nil. simpl.
  destruct t as [o |]; [| discriminate].
  destruct (obj_getitem o _) as [e' | x] eqn:Hget; simpl.
  - intros [= <-]. apply obj_getitem_name in Hget as [Hname _]. exact Hname.
  - destruct x as [[] | | | |]; discriminate.
Qed.

Lemma git_tree_find_entry_name_witness :
  name (mkEntry "main.c" 0x81a4 5%N) =
  List.last (PyStr.split PyStr.slash "src/main.c") EmptyString.
Proof.
  apply (git_tree_find_entry_name sample sample_root "src/main.c").
  vm_compute. reflexivity.
Defined.

(** [git_tree_find] raises nothing but not-found, [KeyError] and
    [TypeError]; in particular indexing the split path never fails. *)
Theorem git_tree_find_raises
    (repo : Repository) (tree : GitObject) (path : string) (x : PyExc) :
  git_tree_find repo tree path = Raise x ->
  x = FuseOSError ENOENT \/ x = KeyError \/ x = TypeError.
Proof.
  unfold git_tree_find.
  destruct (PyList.reduce _ _ _) as [t | y] eqn:Hred; simpl.
  - rewrite (getitem_last EmptyString) by apply split_not_nil. simpl.
    destruct t as [o |]; simpl; [| intros [= <-]; auto].
    destruct (obj_getitem o _) as [e' | y] eqn:Hget; simpl; [discriminate |].
    destruct o as [c | es | d | g]; simpl in Hget;
      try (injection Hget as <-; simpl; intros [= <-]; auto).
    destruct (List.find _ es); [discriminate |].
    injection Hget as <-. simpl. intros [= <-]. auto.
  - intros [= <-]. apply reduce_descent_raise in Hred. tauto.
Qed.

Lemma git_tree_find_raises_witness :
  KeyError = FuseOSError ENOENT \/ KeyError = KeyError \/ KeyError = TypeError.
Proof.
  apply (git_tree_find_raises sample sample_root "nosuch/x").
  vm_compute. reflexivity.
Defined.

(** ** Namespace listings *)

Section ComprehensionFacts.

Context {A B : Type} (f : A -> Result B).

Lemma comprehension_Ok (l : list A) (bs : list B) :
  PyList.comprehension f l = Ok bs ->
  length bs = length l /\
  (forall a, In a l -> exists b, f a = Ok b /\ In b bs) /\
  (forall b, In b bs -> exists a, In a l /\ f a = Ok b).
Proof.
  revert bs. induction l as [|a l IH]; intros bs; simpl.
  - intros [= <-]. repeat split; intros ? [].
  - destruct (f a) as [b | x] eqn:Hfa; [simpl | discriminate].
    destruct (PyList.comprehension f l) as [bs' | x]; [simpl | discriminate].
    intros [= <-]. destruct (IH bs' eq_refl) as (Hlen & Hfwd & Hbwd).
    split; [simpl; congruence |]. split.
    + intros a' [<- | Hin]; [exists b; simpl; auto |].
      destruct (Hfwd a' Hin) as (b' & ? & ?). exists b'. simpl. auto.
    + intros b' [<- | Hin]; [exists a; auto |].
      destruct (Hbwd b' Hin) as (a' & ? & ?). exists a'. auto.
Qed.

Lemma comprehension_Raise (l : list A) (x : PyExc) :
  PyList.comprehension f l = Raise x -> exists a, In a l /\ f a = Raise x.
Proof.
  induction l as [|a l IH]; simpl; [discriminate |].
  destruct (f a) as [b | y] eqn:Hfa; simpl.
  - destruct (PyList.comprehension f l) as [bs' | y]; simpl; [discriminate |].
    intros [= <-]. destruct (IH eq_refl) as (a' & ? & ?). eauto.
  - intros [= <-]. eauto.
Qed.

(** When every exception the element expression can raise is [x], one
    failing element makes the comprehension raise [x]. *)
Lemma comprehension_fails (l : list A) (a : A) (x : PyExc) :
  (forall a' y, f a' = Raise y -> y = x) ->
  In a l -> f a = Raise x ->
  PyList.comprehension f l = Raise x.
Proof.
  intros Honly Hin Hfa.
  destruct (PyList.comprehension f l) as [bs | y] eqn:Hc.
  - apply comprehension_Ok in Hc as (_ & Hfwd & _).
    destruct (Hfwd a Hin) as (b & Hb & _). congruence.
  - apply comprehension_Raise in Hc as (a' & _ & Ha').
    rewrite (Honly a' y Ha'). reflexivity.
Qed.

End ComprehensionFacts.

Section SecondPiece.

Lemma split_max_not_nil (s : string) (n : nat) :
  PyStr.split_max PyStr.slash s n <> [].
Proof.
  revert n. induction s as [|a s IH]; intros n; simpl; [discriminate |].
  destruct n; [discriminate |].
  destruct (Ascii.eqb a PyStr.slash); [discriminate |].
  specialize (IH (S n)).
  destruct (PyStr.split_max PyStr.slash s (S n)); [contradiction | discriminate].
Qed.

Lemma split_max_no_sep (s : string) (n : nat) :
  has_sep s = false -> PyStr.split_max PyStr.slash s n = [s].
Proof.
  induction s as [|a s IH]; [reflexivity |].
  simpl. intros H. apply orb_false_elim in H as [Ha Hs].
  destruct n; [reflexivity |]. rewrite Ha, (IH Hs). reflexivity.
Qed.

(** The first piece of a split holds no separator. *)
Lemma split_max_hd_no_sep (s : string) (n : nat) (h : string)
    (t : list string) :
  PyStr.split_max PyStr.slash s (S n) = h :: t -> has_sep h = false.
Proof.
  revert h t. induction s as [|a s IH]; intros h t; simpl.
  - intros [= <- _]. reflexivity.
  - destruct (Ascii.eqb a PyStr.slash) eqn:Ha.
    + intros [= <- _]. reflexivity.
    + destruct (PyStr.split_max PyStr.slash s (S n)) as [|h' t'] eqn:Hs;
        simpl; intros [= <- _]; simpl; rewrite Ha; [reflexivity |].
      exact (IH h' t' eq_refl).
Qed.

(** With a separator in [s], [s.split('/', 2)] has a second piece, which
    holds no separator. *)
Lemma split_max_second (s : string) :
  has_sep s = true ->
  exists a b t, PyStr.split_max PyStr.slash s 2 = a :: b :: t /\
                has_sep b = false.
Proof.
  induction s as [|c s IH]; [discriminate |].
  simpl. destruct (Ascii.eqb c PyStr.slash) eqn:Hc; simpl.
  - intros _.
    destruct (PyStr.split_max PyStr.slash s 1) as [|h t] eqn:Hs.
    + destruct (split_max_not_nil s 1 Hs).
    + exists EmptyString, h, t. split; [reflexivity |].
      exact (split_max_hd_no_sep s 0 h t Hs).
  - intros Hs. destruct (IH Hs) as (a & b & t & -> & Hb).
    exists (String c a), b, t. auto.
Qed.

(** The element expression of [get_path_children] on a remainder. *)
Lemma second_piece (s : string) :
  if has_sep s
  then exists c, PyList.getitem (PyStr.split_max PyStr.slash s 2) 1 = Ok c /\
                 has_sep c = false
  else PyList.getitem (PyStr.split_max PyStr.slash s 2) 1 = Raise IndexError.
Proof.
  destruct (has_sep s) eqn:Hs.
  - destruct (split_max_second s Hs) as (a & b & t & -> & Hb).
    exists b. rewrite getitem_1. auto.
  - rewrite (split_max_no_sep s 2 Hs). reflexivity.
Qed.

Lemma second_piece_raises (s : string) (y : PyExc) :
  PyList.getitem (PyStr.split_max PyStr.slash s 2) 1 = Raise y ->
  y = IndexError.
Proof.
  pose proof (second_piece s) as H. destruct (has_sep s).
  - destruct H as (c & -> & _). discriminate.
  - rewrite H. intros [= <-]. reflexivity.
Qed.

End SecondPiece.

Section ListingFacts.

Variable repo : Repository.

(** The children, before deduplication, that [get_path_children] collects. *)
Lemma get_path_children_Ok (path : string) (l : list string) :
  get_path_children repo path = Ok l ->
  exists bs,
    PyList.comprehension
      (fun r =>
         PyList.getitem
           (PyStr.split_max PyStr.slash (PyStr.from (child_offset path) r) 2) 1)
      (List.filter (fun r => Nat.ltb (child_offset path) (String.length r))
         (get_child_refs repo path)) = Ok bs /\
    l = elements (list_to_set bs : gset string).
Proof.
  unfold get_path_children. fold (child_offset path).
  destruct (PyList.comprehension _ _) as [bs | x]; [simpl | discriminate].
  intros [= <-]. eauto.
Qed.

(** A reference under [path] whose remainder holds no separator makes
    [get_path_children] raise [IndexError]. *)
Lemma get_path_children_no_second_piece (path r : string) :
  In r (get_child_refs repo path) ->
  (child_offset path < String.length r)%nat ->
  has_sep (PyStr.from (child_offset path) r) = false ->
  get_path_children repo path = Raise IndexError.
Proof.
  intros Hin Hlen Hsep. unfold get_path_children. fold (child_offset path).
  rewrite (comprehension_fails _ _ r IndexError); [reflexivity | | |].
  - intros a y. apply second_piece_raises.
  - apply filter_In. split; [exact Hin |]. apply Nat.ltb_lt. exact Hlen.
  - pose proof (second_piece (PyStr.from (child_offset path) r)) as H.
    rewrite Hsep in H. exact H.
Qed.

End ListingFacts.

(** [get_path_children] raises nothing but [IndexError], and raises it
    exactly when some reference under the path is longer than the path and
    has no separator after it. *)
Theorem get_path_children_raises (repo : Repository) (path : string) :
  (forall x, get_path_children repo path = Raise x -> x = IndexError) /\
  (get_path_children repo path = Raise IndexError <->
   exists r, In r (get_child_refs repo path) /\
     (child_offset path < String.length r)%nat /\
     has_sep (PyStr.from (child_offset path) r) = false).
Proof.
  assert (Hraise : forall x, get_path_children repo path = Raise x ->
            x = IndexError /\
            exists r, In r (get_child_refs repo path) /\
              (child_offset path < String.length r)%nat /\
              has_sep (PyStr.from (child_offset path) r) = false).
  { intros x. unfold get_path_children. fold (child_offset path).
    destruct (PyList.comprehension _ _) as [bs | y] eqn:Hc;
      [discriminate |].
    simpl. intros [= <-].
    apply comprehension_Raise in Hc as (r & Hin & Hr).
    apply filter_In in Hin as [Hin Hlen]. apply Nat.ltb_lt in Hlen.
    pose proof (second_piece (PyStr.from (child_offset path) r)) as H.
    destruct (has_sep (PyStr.from (child_offset path) r)) eqn:Hsep.
    - destruct H as (c & Hc & _). congruence.
    - split; [congruence |]. exists r. auto. }
  split.
  - intros x Hx. apply (Hraise x Hx).
  - split.
    + intros H. apply (Hraise IndexError H).
    + intros (r & Hin & Hlen & Hsep).
      exact (get_path_children_no_second_piece repo path r Hin Hlen Hsep).
Qed.

(** With [/heads/main] and [/heads/main2], the path [/heads/main] makes
    [get_path_children] raise [IndexError]: [/heads/main2] is longer and
    has no separator after it. *)
Lemma get_path_children_raises_witness :
  get_path_children siblings "/heads/main" = Raise IndexError.
Proof.
  apply (proj2 (get_path_children_raises siblings "/heads/main")).
  exists "/heads/main2". split; [vm_compute; tauto |].
  split; [vm_compute; lia | reflexivity].
Defined.

(** When [get_path_children] returns, the names it returns are distinct
    and hold no separator, and it returns the empty list exactly when no
    reference under the path is longer than the path. *)
Theorem get_path_children_names (repo : Repository) (path : string)
    (l : list string) :
  get_path_children repo path = Ok l ->
  List.NoDup l /\
  (forall c, In c l -> has_sep c = false) /\
  (l = [] <->
   forall r, In r (get_child_refs repo path) ->
     (String.length r <= child_offset path)%nat).
Proof.
  intros H. apply get_path_children_Ok in H as (bs & Hc & ->).
  apply comprehension_Ok in Hc as (Hlen & Hfwd & Hbwd).
  split; [apply NoDup_ListNoDup, NoDup_elements |]. split.
  - intros c Hin. apply list_elem_of_In, elem_of_elements in Hin.
    apply elem_of_list_to_set, list_elem_of_In in Hin.
    destruct (Hbwd c Hin) as (r & _ & Hr).
    pose proof (second_piece (PyStr.from (child_offset path) r)) as Hp.
    destruct (has_sep (PyStr.from (child_offset path) r)).
    + destruct Hp as (c' & Hc' & Hsep). congruence.
    + congruence.
  - split.
    + intros Hnil r Hin.
      destruct (Nat.ltb_spec (child_offset path) (String.length r))
        as [Hlt | Hge]; [| exact Hge].
      destruct (Hfwd r) as (b & _ & Hb).
      { apply filter_In. split; [exact Hin | apply Nat.ltb_lt; exact Hlt]. }
      assert (Hel : In b (elements (list_to_set bs : gset string))).
      { apply list_elem_of_In, elem_of_elements, elem_of_list_to_set.
        apply list_elem_of_In. exact Hb. }
      rewrite Hnil in Hel. destruct Hel.
    + intros Hshort.
      rewrite (filter_none _ (get_child_refs repo path)) in Hlen.
      * destruct bs; [apply elements_empty | discriminate].
      * intros r Hin. apply Nat.ltb_ge. exact (Hshort r Hin).
Qed.

Lemma get_path_children_names_witness :
  List.NoDup ["tags"; "heads"] /\
  (forall c, In c ["tags"; "heads"] -> has_sep c = false) /\
  (["tags"; "heads"] = [] <->
   forall r, In r (get_child_refs sample "/") ->
     (String.length r <= child_offset "/")%nat).
Proof.
  apply (get_path_children_names sample "/"). vm_compute. reflexivity.
Defined.

(** ** Listing a reference *)

Lemma length_append (a b : string) :
  String.length (a +:+ b) = (String.length a + String.length b)%nat.
Proof.
  induction a as [|x a IH]; [reflexivity |].
  rewrite append_cons. simpl. congruence.
Qed.

Lemma child_offset_not_root (path : string) :
  path <> "/" -> child_offset path = String.length path.
Proof.
  intros H. unfold child_offset.
  destruct (String.eqb_spec path "/"); [contradiction | reflexivity].
Qed.

(** Listing a reference fails with [IndexError] when another reference
    continues its name inside the same segment, as [/heads/main2] does for
    [/heads/main]. *)
Theorem readdir_sibling_prefix (repo : Repository) (r s : string) :
  In r (refs repo) ->
  In (r +:+ s) (refs repo) ->
  r <> "/" ->
  s <> EmptyString ->
  has_sep s = false ->
  readdir repo r = Raise IndexError.
Proof.
  intros Hr Hrs Hroot Hs Hsep. unfold readdir.
  rewrite (get_path_children_no_second_piece repo r (r +:+ s));
    [reflexivity | | |].
  - apply get_child_refs_In. split; [exact Hrs | apply startswith_app].
  - rewrite (child_offset_not_root r Hroot), length_append.
    destruct s; [contradiction | simpl; lia].
  - rewrite (child_offset_not_root r Hroot), from_app. exact Hsep.
Qed.

Lemma readdir_sibling_prefix_witness :
  readdir siblings "/heads/main" = Raise IndexError.
Proof.
  apply (readdir_sibling_prefix siblings "/heads/main" "2").
  - vm_compute. tauto.
  - vm_compute. tauto.
  - discriminate.
  - discriminate.
  - reflexivity.
Defined.

(** Listing a reference that no other reference extends returns the names
    of the entries of its root tree, in the tree's order. *)
Theorem readdir_reference_root (repo : Repository) (path : string)
    (commit : GitObject) (es : list TreeEntry) :
  path <> "/" ->
  In path (refs repo) ->
  (forall r, In r (refs repo) -> PyStr.startswith r path = true -> r = path) ->
  get_reference_commit repo path = Ok commit ->
  commit_tree repo commit = Ok (Tree es) ->
  readdir repo path = Ok (map name es).
Proof.
  intros Hroot Hin Honly Hc Ht. unfold readdir, get_path_children.
  fold (child_offset path). rewrite (child_offset_not_root path Hroot).
  rewrite (filter_none _ (get_child_refs repo path)).
  - simpl. change (elements (∅ : gset string)) with (@nil string). simpl.
    rewrite (proj2 (refs_mem repo path) Hin), Hc. simpl. rewrite Ht.
    reflexivity.
  - intros r Hr. apply get_child_refs_In in Hr as [Hr Hpre].
    rewrite (Honly r Hr Hpre). apply Nat.ltb_irrefl.
Qed.

Lemma readdir_reference_root_witness :
  readdir sample "/heads/main" = Ok ["README.md"; "src"].
Proof.
  apply (readdir_reference_root sample "/heads/main" (Commit 2%N)
           [mkEntry "README.md" 0x81a4 3%N; mkEntry "src" 0x4000 4%N]).
  - discriminate.
  - vm_compute. tauto.
  - vm_compute. intros r [<- | [<- | []]] H; [discriminate H | reflexivity].
  - reflexivity.
  - reflexivity.
Defined.

(** ** Paths outside every namespace *)

(** A path that no reference extends and no reference owns is not-found
    for [getattr], [readdir] and [read] alike. *)
Theorem unowned_path_not_found (repo : Repository) (path : string) :
  (forall r, In r (refs repo) -> PyStr.startswith r path = false) ->
  (forall r, In r (refs repo) ->
     PyStr.startswith path (r +:+ "/") = false) ->
  getattr repo path = not_found /\
  readdir repo path = not_found /\
  forall size offset, read repo path size offset = not_found.
Proof.
  intros Hunder Hown.
  assert (Hnone : get_child_refs repo path = [])
    by (apply filter_none; exact Hunder).
  assert (Hparent : get_parent_ref repo path = not_found).
  { unfold get_parent_ref. rewrite filter_none by exact Hown. reflexivity. }
  split; [| split].
  - unfold getattr. destruct (PyStr.startswith path "/."); [reflexivity |].
    rewrite Hnone, Hparent. reflexivity.
  - unfold readdir. rewrite (get_path_children_no_refs repo path Hnone).
    simpl. rewrite (not_a_ref repo path Hnone), Hparent. reflexivity.
  - intros size offset. unfold read.
    destruct (PyStr.startswith path "/."); [reflexivity |].
    rewrite Hparent. reflexivity.
Qed.

Lemma unowned_path_not_found_witness :
  getattr sample "/nosuch/x" = not_found /\
  readdir sample "/nosuch/x" = not_found /\
  forall size offset, read sample "/nosuch/x" size offset = not_found.
Proof.
  apply (unowned_path_not_found sample "/nosuch/x").
  - vm_compute. intros r [<- | [<- | []]]; reflexivity.
  - vm_compute. intros r [<- | [<- | []]]; reflexivity.
Defined.

(** ** Attribute records *)

(** The two shapes of record [getattr] returns. *)
Lemma getattr_Ok_shape (repo : Repository) (path : string) (st : Stat) :
  getattr repo path = Ok st ->
  st = directory_template repo \/
  exists size mode,
    st = copy_stat (path_lstat repo) [(F_size, size); (F_mode, mode)].
Proof.
  unfold getattr.
  destruct (PyStr.startswith path "/."); [discriminate |].
  destruct (PyList.truthy (get_child_refs repo path)).
  { intros [= <-]. left. reflexivity. }
  destruct (get_parent_ref repo path) as [ref|]; [simpl | discriminate].
  destruct (get_reference_commit repo ref) as [c|]; [simpl | discriminate].
  destruct (commit_tree repo c) as [t|]; [simpl | discriminate].
  destruct (git_tree_find repo t _) as [e|]; [simpl | discriminate].
  destruct (Z.land (filemode e) S_IFDIR =? S_IFDIR).
  { intros [= <-]. left. reflexivity. }
  destruct (repo_getitem repo (oid e)) as [b|]; [simpl | discriminate].
  destruct (blob_data b) as [d|]; [simpl | discriminate].
  intros [= <-]. right. eauto.
Qed.

(** Whatever the path, the record [getattr] returns carries the device,
    link count, owner, group and timestamps of the repository's storage
    location. *)
Theorem getattr_inherits_repository_metadata
    (repo : Repository) (path : string) (st : Stat) :
  getattr repo path = Ok st ->
  st_dev st = st_dev (path_lstat repo) /\
  st_nlink st = st_nlink (path_lstat repo) /\
  st_uid st = st_uid (path_lstat repo) /\
  st_gid st = st_gid (path_lstat repo) /\
  st_atime st = st_atime (path_lstat repo) /\
  st_mtime st = st_mtime (path_lstat repo) /\
  st_ctime st = st_ctime (path_lstat repo).
Proof.
  intros H. apply getattr_Ok_shape in H as [-> | (size & mode & ->)];
    repeat split; reflexivity.
Qed.

Lemma getattr_inherits_repository_metadata_witness :
  exists st, getattr sample "/heads/main/README.md" = Ok st /\
    st_dev st = 1 /\ st_nlink st = 2 /\ st_uid st = 1000 /\
    st_gid st = 1000 /\ st_atime st = 0 /\ st_mtime st = 0 /\
    st_ctime st = 0.
Proof.
  eexists. split; [vm_compute; reflexivity |].
  apply (getattr_inherits_repository_metadata sample "/heads/main/README.md").
  vm_compute. reflexivity.
Defined.

(** A path that resolves to a directory entry is answered with the
    directory template: the size and the mode reported are those of the
    repository's storage location, not those of the entry. *)
Theorem getattr_snapshot_directory
    (repo : Repository) (path : string) (e : TreeEntry) :
  hidden path = false ->
  get_child_refs repo path = [] ->
  resolves repo path e ->
  entry_is_directory e = true ->
  getattr repo path = Ok (directory_template repo) /\
  st_size (directory_template repo) = st_size (path_lstat repo) /\
  st_mode (directory_template repo) =
    Z.land (st_mode (path_lstat repo)) (Z.lnot write_bits).
Proof.
  intros Hh Hnone Hres Hdir.
  rewrite (getattr_resolved repo path e Hh Hnone Hres), Hdir.
  repeat split; reflexivity.
Qed.

Lemma getattr_snapshot_directory_witness :
  getattr sample "/heads/main/src" = Ok (directory_template sample) /\
  st_size (directory_template sample) = 4096 /\
  st_mode (directory_template sample) = Z.land 0x41ed (Z.lnot write_bits).
Proof.
  apply (getattr_snapshot_directory sample "/heads/main/src"
           (mkEntry "src" 0x4000 4%N)); try reflexivity.
  exists "/heads/main", (Commit 2%N), sample_root.
  repeat split; vm_compute; reflexivity.
Defined.


(** ** Reading *)

(** What [read] returns for non-negative arguments. *)
Lemma read_take_drop (repo : Repository) (path : string) (e : TreeEntry)
    (data : list Byte.byte) (size offset : Z) :
  hidden path = false ->
  resolves repo path e ->
  to_object repo e = Ok (Blob data) ->
  0 <= size -> 0 <= offset ->
  read repo path size offset =
  Ok (take (Z.to_nat size) (drop (Z.to_nat offset) data)).
Proof.
  intros Hh Hres Hblob Hs Ho.
  rewrite (read_resolved repo path e data size offset Hh Hres Hblob).
  destruct (Z.eqb_spec offset 0) as [-> | Hne]; simpl.
  - destruct (Z.leb_spec (Z.of_nat (length data)) size).
    + rewrite take_ge by (rewrite length_drop; lia). reflexivity.
    + rewrite <- (slice_nonneg data 0 size) by lia. reflexivity.
  - rewrite slice_nonneg by lia. reflexivity.
Qed.

(** Two consecutive reads return, put together, what one read of the
    combined size returns. *)
Theorem read_consecutive (repo : Repository) (path : string) (e : TreeEntry)
    (data : list Byte.byte) (size1 size2 offset : Z) :
  hidden path = false ->
  resolves repo path e ->
  to_object repo e = Ok (Blob data) ->
  0 <= size1 -> 0 <= size2 -> 0 <= offset ->
  exists a b,
    read repo path size1 offset = Ok a /\
    read repo path size2 (offset + size1) = Ok b /\
    read repo path (size1 + size2) offset = Ok (a ++ b).
Proof.
  intros Hh Hres Hblob H1 H2 Ho.
  rewrite !(read_take_drop repo path e data) by (assumption || lia).
  do 2 eexists. split; [reflexivity |]. split; [reflexivity |].
  f_equal.
  replace (Z.to_nat (offset + size1))
    with (Z.to_nat offset + Z.to_nat size1)%nat by lia.
  replace (Z.to_nat (size1 + size2))
    with (Z.to_nat size1 + Z.to_nat size2)%nat by lia.
  rewrite <- drop_drop. symmetry. apply take_take_drop.
Qed.

Lemma read_consecutive_witness :
  exists a b,
    read sample "/heads/main/README.md" 4 0 = Ok a /\
    read sample "/heads/main/README.md" 6 (0 + 4) = Ok b /\
    read sample "/heads/main/README.md" (4 + 6) 0 = Ok (a ++ b).
Proof.
  apply (read_consecutive sample "/heads/main/README.md"
           (mkEntry "README.md" 0x81a4 3%N) readme 4 6 0);
    try reflexivity; try lia.
  exists "/heads/main", (Commit 2%N), sample_root.
  repeat split; vm_compute; reflexivity.
Defined.

(** [read] on a path that resolves to a directory raises
    [AttributeError]: a tree has no [data]. *)
Theorem read_directory (repo : Repository) (path : string) (e : TreeEntry)
    (es : list TreeEntry) (size offset : Z) :
  hidden path = false ->
  resolves repo path e ->
  to_object repo e = Ok (Tree es) ->
  read repo path size offset = Raise AttributeError.
Proof.
  unfold read, hidden. intros -> (ref & c & t & Href & Hc & Ht & He) Htree.
  rewrite Href. simpl. rewrite Hc. simpl. rewrite Ht. simpl.
  rewrite He. simpl. rewrite Htree. reflexivity.
Qed.

Lemma read_directory_witness :
  read sample "/heads/main/src" 10 0 = Raise AttributeError.
Proof.
  apply (read_directory sample "/heads/main/src" (mkEntry "src" 0x4000 4%N)
           [mkEntry "main.c" 0x81a4 5%N]); try reflexivity.
  exists "/heads/main", (Commit 2%N), sample_root.
  repeat split; vm_compute; reflexivity.
Defined.

(** ** Listings and lookups agree *)

Section ConsistencyFacts.

Variable repo : Repository.

(** The first piece of a split is a prefix of the string. *)
Lemma split_max_hd_prefix (s : string) (n : nat) (h : string)
    (t : list string) :
  PyStr.split_max PyStr.slash s (S n) = h :: t -> exists tail, s = h +:+ tail.
Proof.
  revert h t. induction s as [|a s IH]; intros h t; simpl.
  - intros [= <- _]. exists EmptyString. reflexivity.
  - destruct (Ascii.eqb a PyStr.slash).
    + intros [= <- _]. exists (String a s). reflexivity.
    + destruct (PyStr.split_max PyStr.slash s (S n)) as [|h' t'] eqn:Hs.
      * destruct (split_max_not_nil s (S n) Hs).
      * simpl. intros [= <- _]. destruct (IH h' t' eq_refl) as [tail ->].
        exists tail. reflexivity.
Qed.

(** A child [get_path_children] collects from a reference that the path
    meets at a segment boundary is the segment of that reference right
    after the path. *)
Lemma boundary_child_prefix (path r c : string) :
  In r (get_child_refs repo path) ->
  on_boundary path r = true ->
  (child_offset path < String.length r)%nat ->
  PyList.getitem
    (PyStr.split_max PyStr.slash (PyStr.from (child_offset path) r) 2) 1 = Ok c ->
  PyStr.startswith r (child_path path c) = true.
Proof.
  intros Hin Hb Hlen Hc. unfold on_boundary in Hb. cbv zeta in Hb.
  fold (child_offset path) in Hb.
  destruct (PyStr.from (child_offset path) r) as [|a rest] eqn:Hfrom.
  { apply from_empty_iff in Hfrom. lia. }
  apply andb_prop in Hb as [Ha _]. apply Ascii.eqb_eq in Ha. subst a.
  cbn [PyStr.split_max] in Hc. rewrite Ascii.eqb_refl in Hc.
  destruct (PyStr.split_max PyStr.slash rest 1) as [|h t] eqn:Hs.
  { destruct (split_max_not_nil rest 1 Hs). }
  rewrite getitem_1 in Hc. injection Hc as ->.
  destruct (split_max_hd_prefix rest 0 c t Hs) as [tail ->].
  apply get_child_refs_In in Hin as [_ Hpre].
  apply startswith_iff in Hpre as [u ->].
  unfold child_offset, child_path in *.
  destruct (String.eqb_spec path "/") as [-> | Hroot].
  - change (PyStr.from 0 ("/" +:+ u)) with ("/" +:+ u) in Hfrom.
    rewrite Hfrom. apply startswith_iff. exists tail. reflexivity.
  - rewrite from_app in Hfrom. subst u.
    apply startswith_iff. exists tail.
    change (String PyStr.slash (c +:+ tail)) with ("/" +:+ (c +:+ tail)).
    rewrite !append_assoc. reflexivity.
Qed.

End ConsistencyFacts.

(** Every name [get_path_children] lists for a path that meets the
    references under it at segment boundaries is itself answered by
    [getattr] as a directory, unless it is hidden. *)
Theorem namespace_children_are_directories
    (repo : Repository) (path c : string) (l : list string) :
  (forall r, In r (get_child_refs repo path) -> on_boundary path r = true) ->
  get_path_children repo path = Ok l ->
  In c l ->
  hidden (child_path path c) = false ->
  getattr repo (child_path path c) = Ok (directory_template repo).
Proof.
  intros Hb Hl Hc Hh.
  apply get_path_children_Ok in Hl as (bs & Hcomp & ->).
  apply list_elem_of_In, elem_of_elements, elem_of_list_to_set in Hc.
  apply list_elem_of_In in Hc.
  apply comprehension_Ok in Hcomp as (_ & _ & Hbwd).
  destruct (Hbwd c Hc) as (r & Hr & Hitem).
  apply filter_In in Hr as [Hr Hlen]. apply Nat.ltb_lt in Hlen.
  apply (getattr_child_refs repo (child_path path c) r Hh).
  apply get_child_refs_In. split.
  - apply get_child_refs_In in Hr. tauto.
  - exact (boundary_child_prefix repo path r c Hr (Hb r Hr) Hlen Hitem).
Qed.

Lemma namespace_children_are_directories_witness :
  getattr sample (child_path "/" "heads") = Ok (directory_template sample) /\
  getattr sample (child_path "/heads" "main") = Ok (directory_template sample).
Proof.
  split.
  - apply (namespace_children_are_directories sample "/" "heads"
             ["tags"; "heads"]).
    + vm_compute. intros r [<- | [<- | []]]; reflexivity.
    + vm_compute. reflexivity.
    + right. left. reflexivity.
    + reflexivity.
  - apply (namespace_children_are_directories sample "/heads" "main"
             ["main"]).
    + vm_compute. intros r [<- | []]; reflexivity.
    + vm_compute. reflexivity.
    + left. reflexivity.
    + reflexivity.
Defined.

Section SnapshotListing.

Variable repo : Repository.

Lemma has_sep_decompose (s : string) :
  has_sep s = true ->
  exists seg rest, s = seg +:+ String PyStr.slash rest /\ has_sep seg = false.
Proof.
  induction s as [|a s IH]; [discriminate |].
  simpl. destruct (Ascii.eqb a PyStr.slash) eqn:Ha; simpl.
  - intros _. apply Ascii.eqb_eq in Ha. subst a.
    exists EmptyString, s. split; reflexivity.
  - intros Hs. destruct (IH Hs) as (seg & rest & -> & Hseg).
    exists (String a seg), rest. split; [reflexivity |].
    simpl. rewrite Ha. exact Hseg.
Qed.

Lemma except_Ok {A} (m : Result A) (a : A) :
  except_type_key_error m = Ok a -> m = Ok a.
Proof. destruct m as [b | [[] | | | |]]; simpl; congruence. Qed.

(** Resolving one more segment below a path that resolved is looking the
    segment up in the object the path resolved to. *)
Lemma git_tree_find_append (n : string) (sub : GitObject) (e : TreeEntry) :
  has_sep n = false ->
  to_object repo e = Ok sub ->
  forall (k : nat) (rel : string) (tree : GitObject),
    (String.length rel <= k)%nat ->
    git_tree_find repo tree rel = Ok e ->
    git_tree_find repo tree (rel +:+ "/" +:+ n) = git_tree_find repo sub n.
Proof.
  intros Hn Hsub. induction k as [|k IH]; intros rel tree Hlen Hfind.
  - destruct rel; [| simpl in Hlen; lia].
    rewrite (git_tree_find_leaf repo tree EmptyString eq_refl) in Hfind.
    apply except_Ok in Hfind.
    rewrite (git_tree_find_segment repo tree EmptyString n eq_refl), Hfind.
    simpl. rewrite Hsub. reflexivity.
  - destruct (has_sep rel) eqn:Hrel.
    + destruct (has_sep_decompose rel Hrel) as (seg & rest & -> & Hseg).
      assert (Hrest : (String.length rest <= k)%nat)
        by (rewrite length_append in Hlen; simpl in Hlen; lia).
      change (seg +:+ String PyStr.slash rest) with (seg +:+ "/" +:+ rest)
        in *.
      rewrite (git_tree_find_segment repo tree seg rest Hseg) in Hfind.
      rewrite append_assoc.
      change (("/" +:+ rest) +:+ "/" +:+ n) with ("/" +:+ rest +:+ "/" +:+ n).
      rewrite (git_tree_find_segment repo tree seg _ Hseg).
      destruct (obj_getitem tree seg) as [e1 |]; [simpl in * | discriminate].
      destruct (to_object repo e1) as [o |]; [simpl in * | discriminate].
      apply IH; [exact Hrest | exact Hfind].
    + rewrite (git_tree_find_leaf repo tree rel Hrel) in Hfind.
      apply except_Ok in Hfind.
      rewrite (git_tree_find_segment repo tree rel n Hrel), Hfind.
      simpl. rewrite Hsub. reflexivity.
Qed.

(** Two prefixes of one string: one is a prefix of the other. *)
Lemma startswith_comparable (s p q : string) :
  PyStr.startswith s p = true -> PyStr.startswith s q = true ->
  PyStr.startswith p q = true \/ PyStr.startswith q p = true.
Proof.
  intros Hp Hq. apply startswith_iff in Hp as [t Hp].
  apply startswith_iff in Hq as [u Hq].
  revert p q Hp Hq.
  induction s as [|a s IH]; intros p q Hp Hq.
  - destruct q; [| rewrite append_cons in Hq; discriminate].
    left. apply startswith_iff. exists p. reflexivity.
  - destruct p as [|b p].
    { right. apply startswith_iff. exists q. reflexivity. }
    destruct q as [|c q].
    { left. apply startswith_iff. exists (String b p). reflexivity. }
    rewrite append_cons in Hp, Hq. injection Hp as <- Hp.
    injection Hq as <- Hq.
    destruct (IH p q Hp Hq) as [H | H];
      apply startswith_iff in H as [v ->]; [left | right];
      apply startswith_iff; exists v; reflexivity.
Qed.

(** A prefix of [r/] is [r/] itself or a prefix of [r]. *)
Lemma startswith_sep (r p : string) :
  PyStr.startswith (r +:+ "/") p = true ->
  p = r +:+ "/" \/ PyStr.startswith r p = true.
Proof.
  revert p. induction r as [|a r IH]; intros p Hp.
  - apply startswith_iff in Hp as [t Ht].
    destruct p as [|b p]; [right; reflexivity |].
    rewrite append_cons in Ht. change (EmptyString +:+ "/") with "/" in Ht.
    injection Ht as <- Ht. destruct p; [| rewrite append_cons in Ht; discriminate].
    left. reflexivity.
  - destruct p as [|b p]; [right; reflexivity |].
    apply startswith_iff in Hp as [t Ht].
    rewrite !append_cons in Ht. injection Ht as <- Ht.
    destruct (IH p) as [-> | H].
    + apply startswith_iff. eauto.
    + left. rewrite append_cons. reflexivity.
    + right. apply startswith_iff in H as [v ->].
      apply startswith_iff. exists v. reflexivity.
Qed.

(** With no reference under [path], what owns [path] owns every path
    below it. *)
Lemma get_parent_ref_below (path n ref : string) :
  get_child_refs repo path = [] ->
  get_parent_ref repo path = Ok ref ->
  get_parent_ref repo (path +:+ "/" +:+ n) = Ok ref.
Proof.
  intros Hnone Href. unfold get_parent_ref in *.
  rewrite (filter_ext_in
             (fun r => PyStr.startswith (path +:+ "/" +:+ n) (r +:+ "/"))
             (fun r => PyStr.startswith path (r +:+ "/"))); [exact Href |].
  intros r Hr.
  destruct (PyStr.startswith path (r +:+ "/")) eqn:Hp.
  - apply (startswith_trans _ path); [apply startswith_app | exact Hp].
  - destruct (PyStr.startswith (path +:+ "/" +:+ n) (r +:+ "/")) eqn:Hq;
      [| reflexivity].
    destruct (startswith_comparable _ _ _ (startswith_app path ("/" +:+ n)) Hq)
      as [H | H]; [congruence |].
    assert (Hin : In r (get_child_refs repo path)).
    { apply get_child_refs_In. split; [exact Hr |].
      destruct (startswith_sep r path H) as [-> | H']; [| exact H'].
      rewrite startswith_refl in Hp. discriminate. }
    rewrite Hnone in Hin. destruct Hin.
Qed.

Lemma find_In {A} (f : A -> bool) (l : list A) (a : A) :
  In a l -> f a = true -> exists b, List.find f l = Some b.
Proof.
  induction l as [|x l IH]; [intros [] |].
  intros [-> | Hin] Hf; simpl.
  - rewrite Hf. eauto.
  - destruct (f x); eauto.
Qed.

End SnapshotListing.

(** Every name [readdir] lists for a directory of a snapshot resolves: the
    path of the directory, a separator and the name lead to an entry of
    that name in the same snapshot. *)
Theorem readdir_entries_resolve
    (repo : Repository) (path : string) (e e' : TreeEntry)
    (es : list TreeEntry) :
  get_child_refs repo path = [] ->
  resolves repo path e ->
  to_object repo e = Ok (Tree es) ->
  In e' es ->
  has_sep (name e') = false ->
  exists e'', resolves repo (path +:+ "/" +:+ name e') e'' /\
              name e'' = name e' /\ In e'' es.
Proof.
  intros Hnone (ref & c & t & Href & Hc & Ht & Hfind) Hsub Hin Hsep.
  destruct (find_In (fun x => String.eqb (name x) (name e')) es e' Hin
              (String.eqb_refl _)) as [e'' Hfound].
  pose proof (find_some _ _ Hfound) as [Hin'' Hname].
  apply String.eqb_eq in Hname.
  exists e''. split; [| auto].
  exists ref, c, t.
  split; [exact (get_parent_ref_below repo path (name e') ref Hnone Href) |].
  split; [exact Hc |]. split; [exact Ht |].
  apply get_parent_ref_Ok in Href as [_ Hpre].
  apply startswith_iff in Hpre as [rel Hpath].
  rewrite Hpath in Hfind |- *. rewrite !append_assoc in *.
  change ("/" +:+ rel) with (String "/" rel) in Hfind.
  change ("/" +:+ rel +:+ "/" +:+ name e')
    with (String "/" (rel +:+ "/" +:+ name e')).
  rewrite from_after_sep in Hfind |- *.
  rewrite (git_tree_find_append repo (name e') (Tree es) e Hsep Hsub
             (String.length rel) rel t (Nat.le_refl _) Hfind).
  rewrite (git_tree_find_leaf repo (Tree es) (name e') Hsep). simpl.
  rewrite Hfound. reflexivity.
Qed.

Lemma readdir_entries_resolve_witness :
  exists e'',
    resolves sample ("/heads/main/src" +:+ "/" +:+ "main.c") e'' /\
    name e'' = "main.c" /\ In e'' [mkEntry "main.c" 0x81a4 5%N].
Proof.
  apply (readdir_entries_resolve sample "/heads/main/src"
           (mkEntry "src" 0x4000 4%N) (mkEntry "main.c" 0x81a4 5%N)
           [mkEntry "main.c" 0x81a4 5%N]).
  - reflexivity.
  - exists "/heads/main", (Commit 2%N), sample_root.
    repeat split; vm_compute; reflexivity.
  - reflexivity.
  - left. reflexivity.
  - reflexivity.
Defined.
